(** * LISAanalysistools: checkpoint store, pipeline hand-off, residual container

    A shallow embedding of
    - [lisatools/globalfit/hdfbackend.py]  (class [HDFBackend]),
    - [lisatools/pipeline/pipeline.py]     (the start-point selection of
      [update_module]),
    - [lisatools/datacontainer.py]         (class [DataResidualArray]),
    followed by the properties of the specification stated over it. *)

From Stdlib Require Import ZArith Floats Uint63.
From stdpp Require Import gmap strings list fin_maps sorting pretty.

Open Scope Z_scope.

(* ===================================================================== *)
(** * Python conventions: exceptions, results, slices                     *)
(* ===================================================================== *)

Module Py.

(** The exception classes the three modules raise or let through. *)
Inductive exn : Set :=
| ValueError | AttributeError | KeyError | TypeError | IndexError
| ZeroDivisionError | AssertionError | OverflowError.

Inductive result (A : Type) : Type :=
| Ok (a : A)
| Raise (e : exn).
Arguments Ok {A} a.
Arguments Raise {A} e.

Definition bind {A B} (r : result A) (k : A → result B) : result B :=
  match r with Ok a => k a | Raise e => Raise e end.

(** [slice(start, stop, step)]; [None] fields are the omitted ones. *)
Record slice : Set := Slice {
  sl_start : option Z;
  sl_stop  : option Z;
  sl_step  : option Z }.

(** One bound of [slice.indices(len)] (CPython's [PySlice_AdjustIndices]). *)
Definition adjust (len step i : Z) : Z :=
  if i <? 0 then
    (if i + len <? 0 then (if step <? 0 then -1 else 0) else i + len)
  else if len <=? i then (if step <? 0 then len - 1 else len)
  else i.

(** [slice.indices(len)]: the normalised [(start, stop, step)]. *)
Definition indices (s : slice) (len : Z) : result (Z * Z * Z) :=
  let step := default 1 (sl_step s) in
  if step =? 0 then Raise ValueError
  else
    let start := match sl_start s with
                 | Some i => adjust len step i
                 | None => if step <? 0 then len - 1 else 0
                 end in
    let stop := match sl_stop s with
                | Some i => adjust len step i
                | None => if step <? 0 then -1 else len
                end in
    Ok (start, stop, step).

(** The positions [start, start+step, ...] of a selection of [count]
    elements. *)
Definition positions (start step : Z) (count : nat) : list nat :=
  (λ k : nat, Z.to_nat (start + Z.of_nat k * step)) <$> seq 0 count.

(** Number of elements of a forward selection [start:stop:step]. *)
Definition count_of (start stop step : Z) : nat :=
  if stop <=? start then 0%nat else Z.to_nat (1 + (stop - start - 1) / step).

(** [a[i0], a[i1], ...] for positions known to be in range. *)
Definition pick {A} (l : list A) (ps : list nat) : list A :=
  omap (λ i, l !! i) ps.

(** Number of elements of a backward selection (negative [step]). *)
Definition count_back (start stop step : Z) : nat :=
  if start <=? stop then 0%nat else Z.to_nat (1 + (start - stop - 1) / (- step)).

(** numpy basic slicing of a one-dimensional array, [a[start:stop:step]]. *)
Definition np_slice {A} (l : list A) (s : slice) : result (list A) :=
  bind (indices s (Z.of_nat (length l))) (λ '(start, stop, step),
    Ok (pick l (positions start step
                  (if step <? 0 then count_back start stop step
                   else count_of start stop step)))).

End Py.
Export Py.

#[export] Instance result_ret : MRet result := @Ok.
#[export] Instance result_bind : MBind result := λ A B k r, Py.bind r k.

(* ===================================================================== *)
(** * The storage layer: resizable datasets and groups                    *)
(* ===================================================================== *)

Module H5.

(** Elements are stored with the backend's dtype, float64. *)
Definition scalar : Set := float.
Definition zero : scalar := 0%float.

(** One entry along axis 0, flattened over the remaining axes. *)
Definition row : Set := list scalar.

(** A dataset: its entries along axis 0, the extent of the remaining
    axes, the largest axis-0 extent it may be given ([None]: unlimited)
    and whether its layout is chunked.  A dataset created without
    [maxshape] has its creation shape as maximal shape; it is chunked
    only when a [maxshape] or a compression filter is requested. *)
Record dataset : Set := Dataset {
  ds_rows    : list row;
  ds_inner   : list nat;
  ds_maxlen  : option nat;
  ds_chunked : bool }.

Definition ds_len (d : dataset) : nat := length (ds_rows d).

Definition zero_row (inner : list nat) : row :=
  replicate (foldr Nat.mul 1%nat inner) zero.

(** [create_dataset(name, data=values, compression=...)] for a
    one-dimensional array of values: no [maxshape]. *)
Definition of_data (values : list scalar) (compression : bool) : dataset :=
  {| ds_rows := (λ v, [v]) <$> values;
     ds_inner := [];
     ds_maxlen := Some (length values);
     ds_chunked := compression |}.

(** [create_dataset(name, (n0, inner...), maxshape=(None, inner...))]:
    zero-filled, unlimited along axis 0.  A negative extent is refused. *)
Definition of_shape (n0 : Z) (inner : list Z) : result dataset :=
  if forallb (λ d, 0 <=? d) (n0 :: inner) then
    let inner' := Z.to_nat <$> inner in
    Ok {| ds_rows := replicate (Z.to_nat n0) (zero_row inner');
          ds_inner := inner';
          ds_maxlen := None;
          ds_chunked := true |}
  else Raise ValueError.

(** [dset.resize(n, axis=0)]: only chunked datasets can be resized, and
    not beyond their maximal shape; new entries hold the fill value 0. *)
Definition resize (n : Z) (d : dataset) : result dataset :=
  if negb (ds_chunked d) then Raise TypeError
  else if n <? 0 then Raise ValueError
  else if match ds_maxlen d with
          | Some m => Z.of_nat m <? n
          | None => false
          end then Raise ValueError
  else Ok {| ds_rows := list.resize (Z.to_nat n) (zero_row (ds_inner d)) (ds_rows d);
             ds_inner := ds_inner d;
             ds_maxlen := ds_maxlen d;
             ds_chunked := ds_chunked d |}.

(** [dset[i] = dat] for an integer [i]: negative indices count from the
    end, an index outside the extent is an error, and the value must
    have the shape of one entry. *)
Definition set_row (i : Z) (shape : list nat) (dat : row) (d : dataset)
  : result dataset :=
  let len := Z.of_nat (ds_len d) in
  let j := if i <? 0 then i + len else i in
  if (j <? 0) || (len <=? j) then Raise IndexError
  else if negb (bool_decide (shape = ds_inner d)) then Raise TypeError
  else Ok {| ds_rows := <[Z.to_nat j := dat]> (ds_rows d);
             ds_inner := ds_inner d;
             ds_maxlen := ds_maxlen d;
             ds_chunked := ds_chunked d |}.

(** What [dset[sel]] may be indexed with here: a slice or an array of
    indices. *)
Inductive selector : Set :=
| BySlice (s : slice)
| ByIndices (ix : list Z).

(** Index arrays must be increasing and in range. *)
Fixpoint increasing_from (lo : Z) (ix : list Z) : bool :=
  match ix with
  | [] => true
  | i :: ix' => (lo <? i) && increasing_from i ix'
  end.

(** [dset[sel]]: the selected entries along axis 0.  A slice goes
    through [slice.indices]; its step must be at least 1, and a stop
    before the start selects nothing. *)
Definition getitem (sel : selector) (d : dataset) : result (list row) :=
  let len := Z.of_nat (ds_len d) in
  match sel with
  | BySlice s =>
      '(start, stop, step) ← indices s len;
      if step <? 1 then Raise ValueError
      else Ok (pick (ds_rows d) (positions start step (count_of start stop step)))
  | ByIndices ix =>
      if increasing_from (-1) ix && forallb (λ i, i <? len) ix
      then Ok (pick (ds_rows d) (Z.to_nat <$> ix))
      else Raise IndexError
  end.

(** A group's members, kept in the order in which the group is iterated:
    by name. *)
Definition members : Set := list (string * dataset).

Fixpoint lookup_member (k : string) (ms : members) : option dataset :=
  match ms with
  | [] => None
  | (k', d) :: ms' => if String.eqb k k' then Some d else lookup_member k ms'
  end.

Fixpoint insert_member (k : string) (d : dataset) (ms : members) : members :=
  match ms with
  | [] => [(k, d)]
  | (k', d') :: ms' =>
      if String.ltb k k' then (k, d) :: ms
      else (k', d') :: insert_member k d ms'
  end.

(** Replace the dataset stored under an existing name. *)
Fixpoint update_member (k : string) (d : dataset) (ms : members) : members :=
  match ms with
  | [] => []
  | (k', d') :: ms' =>
      if String.eqb k k' then (k', d) :: ms'
      else (k', d') :: update_member k d ms'
  end.

(** [group.create_dataset(name, ...)]: the name must be free. *)
Definition create (k : string) (d : dataset) (ms : members) : result members :=
  match lookup_member k ms with
  | Some _ => Raise ValueError
  | None => Ok (insert_member k d ms)
  end.

End H5.
Export H5.

(* ===================================================================== *)
(** * [lisatools/globalfit/hdfbackend.py]                                 *)
(* ===================================================================== *)

Module HDFBackend.

(** ** The file *)

(** The [band_info] group: its attributes and its datasets. *)
Record band_group : Type := BandGroup {
  bi_attrs   : gmap string Z;
  bi_members : members }.

(** The group [f[self.name]]: its attributes (among them ["iteration"]),
    the base ensemble arrays, one record per iteration slot, and the
    [band_info] sub-group once it has been created. *)
Record group : Type := Group {
  g_attrs     : gmap string Z;
  g_base      : list row;
  g_band_info : option band_group }.

(** The backend object: its compression setting ([self.compression is
    not None]) and the group it owns in the file, if the file has one. *)
Record backend : Type := Backend {
  compression : bool;
  h5file      : option group }.

(** ** The ensemble state *)

(** A value of the [state.band_info] dictionary. *)
Inductive pyobj : Set :=
| NdArray (shape : list nat) (data : row)
| Other.

(** The state handed to [save_step]: what the base store persists, and
    the [band_info] dictionary in insertion order. *)
Record State : Set := MkState {
  st_base   : row;
  band_info : list (string * pyobj) }.

(** ** Operations on the file: state and exceptions *)

(** An operation changes the file and returns or raises; what was written
    before an exception stays written. *)
Definition io (A : Type) : Type := backend → backend * result A.

#[export] Instance io_ret : MRet io := λ A a b, (b, Ok a).
#[export] Instance io_bind : MBind io := λ A B k m b,
  match m b with
  | (b', Ok a) => k a b'
  | (b', Raise e) => (b', Raise e)
  end.

Definition lift {A} (r : result A) : io A := λ b, (b, r).

Definition attr (k : string) (m : gmap string Z) : result Z :=
  match m !! k with Some v => Ok v | None => Raise KeyError end.

(** [f[self.name]] *)
Definition group_of (b : backend) : result group :=
  match h5file b with Some g => Ok g | None => Raise KeyError end.

(** [g["band_info"]] *)
Definition band_of (g : group) : result band_group :=
  match g_band_info g with Some bi => Ok bi | None => Raise KeyError end.

Definition get_group : io group := λ b, (b, group_of b).

Definition put_group (g : group) : io unit := λ b,
  ({| compression := compression b; h5file := Some g |}, Ok ()).

Definition get_band : io band_group :=
  g ← get_group; lift (band_of g).

Definition put_band (bi : band_group) : io unit :=
  g ← get_group;
  put_group {| g_attrs := g_attrs g; g_base := g_base g; g_band_info := Some bi |}.

(** ** The base class
    [eryn.backends.HDFBackend] is a collaborator outside this repository;
    its operations are taken from the specification. *)

(** Modelled from the spec: the base class's [initialized] property, not
    part of this repository: true once a reset has created the store. *)
Definition initialized (b : backend) : bool :=
  match h5file b with Some _ => true | None => false end.

(** Modelled from the spec: the base class's [iteration] property, not
    part of this repository: the number of committed iterations, read
    from the persisted attributes. *)
Definition iteration (b : backend) : result Z :=
  g ← group_of b; attr "iteration" (g_attrs g).

(** Modelled from the spec: the base class's [reset], not part of this
    repository: "the base-store reset (ensemble array skeletons, zero
    iterations)". *)
Definition super_reset (nwalkers ntemps : Z) : io unit :=
  put_group {| g_attrs := {[ "iteration" := 0; "nwalkers" := nwalkers;
                             "ntemps" := ntemps ]};
               g_base := [];
               g_band_info := None |}.

(** Modelled from the spec: the base class's [grow], not part of this
    repository: "extends base arrays by nIterations". *)
Definition super_grow (ngrow : Z) : io unit :=
  g ← get_group;
  let n := Z.of_nat (length (g_base g)) + ngrow in
  if n <? 0 then lift (Raise ValueError)
  else put_group {| g_attrs := g_attrs g;
                    g_base := list.resize (Z.to_nat n) [] (g_base g);
                    g_band_info := g_band_info g |}.

(** Modelled from the spec: the base class's [save_step], not part of this
    repository: persists the base arrays of the step and "advances the
    iteration counter by one". *)
Definition super_save_step (state : State) : io unit :=
  g ← get_group;
  it ← lift (attr "iteration" (g_attrs g));
  if (it <? 0) || (Z.of_nat (length (g_base g)) <=? it) then lift (Raise IndexError)
  else put_group {| g_attrs := <["iteration" := it + 1]> (g_attrs g);
                    g_base := <[Z.to_nat it := st_base state]> (g_base g);
                    g_band_info := g_band_info g |}.

(** What [get_value] returns: an array of the base store, or the
    dictionary of the diagnostics arrays. *)
Inductive value : Set :=
| BaseValue (rows : list row)
| BandInfo (items : list (string * list row)).

(** The default selection of a read: [slice(discard + thin - 1,
    iteration, thin)]. *)
Definition default_slice (thin discard it : Z) : selector :=
  BySlice (Slice (Some (discard + thin - 1)) (Some it) (Some thin)).

(** Modelled from the spec: the base class's [get_value], not part of
    this repository: a read of a base array, failing with the
    not-initialized error "if no reset has occurred or zero iterations
    have been committed". *)
Definition super_get_value (name : string) (thin discard : Z)
    (slice_vals : option selector) (b : backend) : result value :=
  if negb (initialized b) then Raise AttributeError
  else
    g ← group_of b;
    it ← attr "iteration" (g_attrs g);
    if it <=? 0 then Raise AttributeError
    else
      rows ← getitem (default (default_slice thin discard it) slice_vals)
               {| ds_rows := g_base g; ds_inner := [];
                  ds_maxlen := None; ds_chunked := true |};
      Ok (BaseValue rows).

(** Modelled from the spec: the base class's [get_a_sample], not part of
    this repository: the "base-store fields" of the snapshot, read "via
    delegation". *)
Definition super_get_a_sample (it : Z) (b : backend) : result (list row) :=
  if negb (initialized b) then Raise AttributeError
  else
    cur ← iteration b;
    if cur <=? 0 then Raise AttributeError
    else
      let thin := if bool_decide (it ≠ cur) then cur - it else 1 in
      v ← super_get_value "chain" thin (it - 1) None b;
      match v with
      | BaseValue rows => Ok rows
      | BandInfo _ => Raise TypeError
      end.

(** ** [HDFBackend.reset] *)

(** [g.create_group("band_info")]: the name must be free. *)
Definition create_band_group : io unit :=
  g ← get_group;
  match g_band_info g with
  | Some _ => lift (Raise ValueError)
  | None => put_group {| g_attrs := g_attrs g; g_base := g_base g;
                         g_band_info := Some (BandGroup ∅ []) |}
  end.

(** [band_info.create_dataset(name, ...)] *)
Definition create_dataset (name : string) (mk : result dataset) : io unit :=
  d ← lift mk;
  bi ← get_band;
  ms ← lift (create name d (bi_members bi));
  put_band {| bi_attrs := bi_attrs bi; bi_members := ms |}.

(** [band_info.attrs[k] = v] *)
Definition set_band_attr (k : string) (v : Z) : io unit :=
  bi ← get_band;
  put_band {| bi_attrs := <[k := v]> (bi_attrs bi); bi_members := bi_members bi |}.

Definition reset (nwalkers ntemps : Z) (num_bands : option Z)
    (band_edges : option (list scalar)) : io unit :=
  match num_bands, band_edges with
  | Some nb, Some edges =>
      (* regular reset *)
      _ ← super_reset nwalkers ntemps;
      _ ← create_band_group;
      c ← (λ b, (b, Ok (compression b)));
      _ ← create_dataset "band_edges" (Ok (of_data edges c));
      _ ← set_band_attr "num_bands" (Z.of_nat (length edges));
      _ ← create_dataset "band_temps" (of_shape 0 [nb; ntemps]);
      _ ← create_dataset "band_swaps_proposed" (of_shape 0 [nb; ntemps - 1]);
      _ ← create_dataset "band_swaps_accepted" (of_shape 0 [nb; ntemps - 1]);
      _ ← create_dataset "band_num_proposed" (of_shape 0 [nb; ntemps]);
      _ ← create_dataset "band_num_accepted" (of_shape 0 [nb; ntemps]);
      _ ← create_dataset "band_num_proposed_rj" (of_shape 0 [nb; ntemps]);
      _ ← create_dataset "band_num_accepted_rj" (of_shape 0 [nb; ntemps]);
      create_dataset "band_num_binaries" (of_shape 0 [ntemps; nwalkers; nb])
  | _, _ => lift (Raise ValueError)
  end.

(** ** The properties [num_bands] and [band_edges] *)

(** [f[self.name]["band_info"].attrs["num_bands"]] *)
Definition num_bands (b : backend) : result Z :=
  g ← group_of b; bi ← band_of g; attr "num_bands" (bi_attrs bi).

(** [f[self.name].attrs["num_bands"]] *)
Definition band_edges (b : backend) : result Z :=
  g ← group_of b; attr "num_bands" (g_attrs g).

(** ** [HDFBackend.grow] *)

(** [for key in g["band_info"]: g["band_info"][key].resize(ntot, axis=0)]:
    the members are resized one after the other; the first failure ends
    the loop and leaves the members before it resized. *)
Fixpoint resize_each (ntot : Z) (ms : members) : members * result unit :=
  match ms with
  | [] => ([], Ok ())
  | (k, d) :: ms' =>
      match resize ntot d with
      | Raise e => (ms, Raise e)
      | Ok d' => let '(ms'', r) := resize_each ntot ms' in ((k, d') :: ms'', r)
      end
  end.

Definition grow (ngrow : Z) : io unit :=
  _ ← super_grow ngrow;
  g ← get_group;
  it ← lift (attr "iteration" (g_attrs g));
  (* resize all the arrays accordingly *)
  let ntot := it + ngrow in
  bi ← get_band;
  let '(ms, r) := resize_each ntot (bi_members bi) in
  _ ← put_band {| bi_attrs := bi_attrs bi; bi_members := ms |};
  lift r.

(** ** [HDFBackend.get_value] and [HDFBackend.get_band_info] *)

(** [{key: g["band_info"][key][slice_vals] for key in g["band_info"]}] *)
Fixpoint read_each (sel : selector) (ms : members)
  : result (list (string * list row)) :=
  match ms with
  | [] => Ok []
  | (k, d) :: ms' =>
      rows ← getitem sel d;
      rest ← read_each sel ms';
      Ok ((k, rows) :: rest)
  end.

Definition get_value (name : string) (thin discard : Z)
    (slice_vals : option selector) (b : backend) : result value :=
  (* check if initialized *)
  if negb (initialized b) then Raise AttributeError
  else if negb (String.eqb name "band_info") then
    super_get_value name thin discard slice_vals b
  else
    sel ← match slice_vals with
          | None => cur ← iteration b; Ok (default_slice thin discard cur)
          | Some sel => Ok sel
          end;
    g ← group_of b;
    it ← attr "iteration" (g_attrs g);
    if it <=? 0 then Raise AttributeError
    else
      bi ← band_of g;
      items ← read_each sel (bi_members bi);
      Ok (BandInfo items).

(** [get_band_info] with keyword arguments: the keywords that are left
    out take [get_value]'s defaults, [thin=1] and [discard=0]. *)
Definition get_band_info (thin discard : option Z)
    (slice_vals : option selector) (b : backend) : result value :=
  get_value "band_info" (default 1 thin) (default 0 discard) slice_vals b.

(** ** [HDFBackend.save_step] *)

(** [for name, dat in state.band_info.items(): ...
      g["band_info"][name][iteration] = dat] *)
Fixpoint write_band_info (it : Z) (entries : list (string * pyobj))
    (ms : members) : members * result unit :=
  match entries with
  | [] => (ms, Ok ())
  | (name, NdArray shape data) :: rest =>
      if String.eqb name "band_edges" then write_band_info it rest ms
      else
        match lookup_member name ms with
        | None => (ms, Raise KeyError)
        | Some d =>
            match set_row it shape data d with
            | Raise e => (ms, Raise e)
            | Ok d' => write_band_info it rest (update_member name d' ms)
            end
        end
  | (_, Other) :: rest => write_band_info it rest ms
  end.

(** The arrays of [state.band_info] that count events since the last
    persisted step: swaps, in-model and trans-dimensional proposals and
    acceptances, live components. *)
Definition counter_names : list string :=
  [ "band_swaps_proposed"; "band_swaps_accepted";
    "band_num_proposed"; "band_num_accepted";
    "band_num_proposed_rj"; "band_num_accepted_rj";
    "band_num_binaries" ].

Definition is_counter (name : string) : bool :=
  bool_decide (name ∈ counter_names).

(** Modelled from the spec: [State.reset_band_counters], defined in
    [lisatools/globalfit/state.py], which is not among the sources: "the
    caller's ensembleState counters are zeroed". *)
Definition reset_band_counters (state : State) : State :=
  {| st_base := st_base state;
     band_info :=
       (λ '(name, v),
          match v with
          | NdArray shape data =>
              if is_counter name
              then (name, NdArray shape (replicate (length data) zero))
              else (name, v)
          | Other => (name, v)
          end) <$> band_info state |}.

(** [save_step(state)]: the file and the caller's state after the call,
    and whether it returned. *)
Definition save_step (state : State) (b : backend)
  : backend * State * result unit :=
  let step : io unit :=
    _ ← super_save_step state;
    g ← get_group;
    (* minus one because it was updated in the super function *)
    cur ← lift (attr "iteration" (g_attrs g));
    let it := cur - 1 in
    (* [hasattr(self, "num_bands")] evaluates the property; it holds
       whenever the property returns *)
    _ ← (λ b', (b', num_bands b'));
    bi ← get_band;
    let '(ms, r) := write_band_info it (band_info state) (bi_members bi) in
    _ ← put_band {| bi_attrs := bi_attrs bi; bi_members := ms |};
    lift r in
  match step b with
  | (b', Ok _) => (b', reset_band_counters state, Ok ())
  | (b', Raise e) => (b', state, Raise e)
  end.

(** ** [HDFBackend.get_a_sample] *)

(** An entry of [sample.band_info]. *)
Inductive band_value : Set :=
| Rows (rows : list row)
| PyTrue.

Record Sample : Set := MkSample {
  sample_base      : list row;
  sample_band_info : list (string * band_value) }.

Definition get_a_sample (it : Z) (b : backend) : result Sample :=
  base ← super_get_a_sample it b;
  cur ← iteration b;
  let thin := if bool_decide (it ≠ cur) then cur - it else 1 in
  v ← get_band_info (Some thin) (Some (it - 1)) None b;
  match v with
  | BandInfo items =>
      Ok {| sample_base := base;
            sample_band_info :=
              ((λ '(k, rows), (k, Rows rows)) <$> items)
              ++ [("initialized"%string, PyTrue)] |}
  | BaseValue _ => Raise TypeError
  end.

(** ** Observations on a store *)

(** Axis-0 extent of the base arrays. *)
Definition base_len (b : backend) : nat :=
  match h5file b with Some g => length (g_base g) | None => 0%nat end.

(** The members of the [band_info] group. *)
Definition band_members (b : backend) : members :=
  match h5file b with
  | Some g => match g_band_info g with Some bi => bi_members bi | None => [] end
  | None => []
  end.

(** The group of an initialised store and its [band_info] group. *)
Definition group_at (b : backend) : group :=
  default (Group ∅ [] None) (h5file b).

Definition band_at (b : backend) : band_group :=
  default (BandGroup ∅ []) (g_band_info (group_at b)).

(** ** Predicates used to state the properties *)

(** What a successful [reset] leaves in the file. *)
Definition after_reset (edges : list scalar) (c : bool) (g : group) : Prop :=
  g_attrs g !! "iteration" = Some 0 ∧
  g_attrs g !! "num_bands" = None ∧
  g_base g = [] ∧
  ∃ bi, g_band_info g = Some bi ∧
    bi_attrs bi !! "num_bands" = Some (Z.of_nat (length edges)) ∧
    ∃ inner3 inner2 innerw,
      bi_members bi =
        [ ("band_edges"%string, of_data edges c);
          ("band_num_accepted"%string, Dataset [] inner3 None true);
          ("band_num_accepted_rj"%string, Dataset [] inner3 None true);
          ("band_num_binaries"%string, Dataset [] innerw None true);
          ("band_num_proposed"%string, Dataset [] inner3 None true);
          ("band_num_proposed_rj"%string, Dataset [] inner3 None true);
          ("band_swaps_accepted"%string, Dataset [] inner2 None true);
          ("band_swaps_proposed"%string, Dataset [] inner2 None true);
          ("band_temps"%string, Dataset [] inner3 None true) ].

(** The rows that [a[discard+thin-1 : iteration : thin]] selects from the
    entries [a]. *)
Definition thinned (thin discard it : Z) (a rows : list row) : Prop :=
  np_slice a (Slice (Some (discard + thin - 1)) (Some it) (Some thin)) = Ok rows ∧
  ∀ j : nat,
    rows !! j =
      if decide (discard + thin - 1 + Z.of_nat j * thin
                 < Z.min it (Z.of_nat (length a)))
      then a !! Z.to_nat (discard + thin - 1 + Z.of_nat j * thin)
      else None.


(** ** A backend on a new file, and a running example *)

Definition fresh (compressed : bool) : backend :=
  {| compression := compressed; h5file := None |}.

Module Example.

Definition edges : list scalar := [0; 1; 2; 3]%float.

(** [reset(4, ntemps=2, num_bands=3, band_edges=[0,1,2,3])], without
    and with a compression filter. *)
Definition plain : backend :=
  (reset 4 2 (Some 3) (Some edges) (fresh false)).1.
Definition packed : backend :=
  (reset 4 2 (Some 3) (Some edges) (fresh true)).1.

(** The same store after [grow(2)]. *)
Definition grown : backend := (grow 2 packed).1.

(** A state with a temperature ladder, two counters, the band edges
    and a flag. *)
Definition state : State :=
  {| st_base := [7]%float;
     band_info :=
       [ ("initialized"%string, Other);
         ("band_edges"%string, NdArray [4%nat] edges);
         ("band_temps"%string, NdArray [3; 2]%nat [1; 2; 1; 2; 1; 2]%float);
         ("band_swaps_proposed"%string, NdArray [3; 1]%nat [5; 6; 7]%float);
         ("band_num_accepted"%string, NdArray [3; 2]%nat [1; 0; 2; 0; 3; 0]%float) ] |}.

(** The store after one and after two steps have been saved, the
    second with the state as the first call left it. *)
Definition saved : backend := (save_step state grown).1.1.
Definition saved_twice : backend :=
  (save_step (reset_band_counters state) saved).1.1.

End Example.

(** ** [HDFBackend.reset_kwargs], and a [reset] called with keywords *)

(** A keyword value: an integer, an array of band edges, or a value that
    only the base class reads. *)
Inductive kwval : Set :=
| KInt (z : Z)
| KEdges (edges : list scalar)
| KBase (what : string).

(** [kw.get(k)] on a dictionary of keywords. *)
Fixpoint kw_get (k : string) (kw : list (string * kwval)) : option kwval :=
  match kw with
  | [] => None
  | (k', v) :: kw' => if String.eqb k k' then Some v else kw_get k kw'
  end.

(** Modelled from the spec: the base class's properties [nleaves_max],
    [branch_names], [rj] and [moves], not part of this repository: values
    read back from the store, there once the store is initialised. *)
Definition base_property (what : string) (b : backend) : result kwval :=
  if initialized b then Ok (KBase what) else Raise KeyError.

(** Modelled from the spec: the base class's property [ntemps], not part
    of this repository: the temperature count of the last reset, read
    back from the persisted attributes. *)
Definition ntemps_property (b : backend) : result Z :=
  g ← group_of b; attr "ntemps" (g_attrs g).

Definition reset_kwargs (b : backend) : result (list (string * kwval)) :=
  nleaves_max ← base_property "nleaves_max" b;
  ntemps ← ntemps_property b;
  branch_names ← base_property "branch_names" b;
  rj ← base_property "rj" b;
  moves ← base_property "moves" b;
  nb ← num_bands b;
  Ok [ ("nleaves_max"%string, nleaves_max);
       ("ntemps"%string, KInt ntemps);
       ("branch_names"%string, branch_names);
       ("rj"%string, rj);
       ("moves"%string, moves);
       ("num_bands"%string, KInt nb) ].

(** [reset(nwalkers, **kw)]: [ntemps], [num_bands] and [band_edges] are
    taken from the keywords, with the defaults of the signature; the test
    for [None] comes before any use of the values; the other keywords go
    to the base class. *)
Definition reset_with (nwalkers : Z) (kw : list (string * kwval)) : io unit :=
  match kw_get "num_bands" kw, kw_get "band_edges" kw with
  | Some nb, Some edges =>
      match default (KInt 1) (kw_get "ntemps" kw), nb, edges with
      | KInt ntemps, KInt nb, KEdges edges =>
          reset nwalkers ntemps (Some nb) (Some edges)
      | _, _, _ => lift (Raise TypeError)
      end
  | _, _ => lift (Raise ValueError)
  end.

(** ** Steps in a row *)


(** The arrays of a state fit a store at row [it]: each one has a dataset
    of its name, of its shape per row, with a row [it]. *)
Definition fits (it : Z) (state : State) (ms : members) : Prop :=
  ∀ name shape data,
    (name, NdArray shape data) ∈ band_info state →
    name ≠ "band_edges"%string →
    ∃ d, lookup_member name ms = Some d ∧ shape = ds_inner d ∧
         it < Z.of_nat (ds_len d).

(** The stores of a run: what a valid [reset] creates on a backend whose
    compression filter is [c] (there or not), and what the calls of [grow]
    and [save_step] that follow, returning or raising, make of it. *)
Inductive run_store (c : bool) : backend → Prop :=
| run_reset nwalkers ntemps nb edges b0 b :
    compression b0 = c →
    reset nwalkers ntemps (Some nb) (Some edges) b0 = (b, Ok ()) →
    run_store c b
| run_grow n b : run_store c b → run_store c (grow n b).1
| run_save_step state b : run_store c b → run_store c (save_step state b).1.1.

(** ** Further examples *)

Module Example2.

(** The store of [Example.plain] after a [grow(5)] that has raised. *)
Definition half_grown : backend := (grow 5 Example.plain).1.

End Example2.

End HDFBackend.

(* ===================================================================== *)
(** * [lisatools/pipeline/pipeline.py]: choosing the start points         *)
(* ===================================================================== *)

Module Pipeline.

(** Log-probabilities are only compared with each other; they are carried
    as integers, a total order (no [nan] among the stored values). *)
Abbreviation logp := Z (only parsing).

(** The first of every run of equal neighbours. *)
Fixpoint uniq_from (prev : logp) (l : list logp) : list logp :=
  match l with
  | [] => []
  | x :: l' => if prev =? x then uniq_from x l' else x :: uniq_from x l'
  end.

Definition uniq_sorted (l : list logp) : list logp :=
  match l with
  | [] => []
  | x :: l' => x :: uniq_from x l'
  end.

(** Position of the first occurrence of [v]. *)
Fixpoint index_of (v : logp) (l : list logp) : nat :=
  match l with
  | [] => 0%nat
  | x :: l' => if x =? v then 0%nat else S (index_of v l')
  end.

(** [np.unique(a, return_index=True)]: the sorted distinct values of [a]
    and, for each, the index of its first occurrence in [a]. *)
Definition np_unique_index (a : list logp) : list logp * list nat :=
  let uni := uniq_sorted (merge_sort Z.le a) in
  (uni, (λ v, index_of v a) <$> uni).

(** What [np.argsort] has to return: the indices of the array in an order
    that sorts it.  The default sort is not stable, so the order among
    equal values is not determined. *)
Definition is_argsort (a : list logp) (order : list nat) : Prop :=
  order ≡ₚ seq 0 (length a) ∧ Sorted Z.le (pick a order).

(** The lines shared by [MBHBase.update_module] (when not searching),
    [MBHRelBinSearch.update_module] and [MBHRelBinPE.update_module]:
<<
    start_inds = np.argsort(log_prob)
    uni, inds = np.unique(log_prob[start_inds], return_index=True)
    start_inds = start_inds[inds[-int(self.ntemps * self.nwalkers):]]
>>
    [log_prob] is the flattened array read from the previous stage's
    store. *)
Definition select_start_inds (argsort : list logp → list nat)
    (log_prob : list logp) (ntemps nwalkers : Z) : result (list nat) :=
  let start_inds := argsort log_prob in
  let '(uni, inds) := np_unique_index (pick log_prob start_inds) in
  top ← np_slice inds (Slice (Some (- (ntemps * nwalkers))) None None);
  Ok (pick start_inds top).

(** Each chosen index holds its value and is, among the samples of that
    value, the one that comes first in the sorted order. *)
Definition first_of_value (log_prob : list Z) (order : list nat)
    (i : nat) (v : Z) : Prop :=
  log_prob !! i = Some v ∧
  ∃ p : nat, order !! p = Some i ∧
             pick log_prob order !! p = Some v ∧
             ∀ q : nat, (q < p)%nat → pick log_prob order !! q ≠ Some v.

(** Pairs of a value and its index, compared by value. *)
Definition by_value (p q : logp * nat) : Prop := p.1 ≤ q.1.

#[export] Instance by_value_dec p q : Decision (by_value p q).
Proof. unfold by_value. apply _. Defined.

(** An argsort by merge sort, one of the orders [np.argsort] may return. *)
Definition merge_argsort (a : list logp) : list nat :=
  snd <$> merge_sort by_value (zip a (seq 0 (length a))).

(** ** The template of the relative-binning stages *)

(** The lines of [MBHRelBinSearch.update_module] and
    [MBHRelBinPE.update_module]:
<<
    ndim_full = 13
    test_inds = np.array([0, 1, 2, 3, 4, 5, 7, 8, 9, 10, 11])
    relbin_template = np.zeros(ndim_full)
    relbin_template[test_inds] = start_state[-1]
>>
    *)
Definition ndim_full : nat := 13.

Definition test_inds : list nat := [0; 1; 2; 3; 4; 5; 7; 8; 9; 10; 11]%nat.

(** [a[idx] = vals] for in-range indices [idx]: one value per index, or a
    single value for all of them. *)
Definition np_put (a : list float) (idx : list nat) (vals : list float)
  : result (list float) :=
  let store (vs : list float) :=
    foldl (λ acc (iv : nat * float), <[iv.1 := iv.2]> acc) a (zip idx vs) in
  if bool_decide (length vals = length idx) then Ok (store vals)
  else match vals with
       | [v] => Ok (store (replicate (length idx) v))
       | _ => Raise ValueError
       end.

(** [start_state] holds one row of parameters per selected start point. *)
Definition relbin_template (start_state : list (list float))
  : result (list float) :=
  row ← match last start_state with
        | Some row => Ok row
        | None => Raise IndexError
        end;
  np_put (replicate ndim_full 0%float) test_inds row.

End Pipeline.

(* ===================================================================== *)
(** * [lisatools/datacontainer.py]                                        *)
(* ===================================================================== *)

Module DataResidualArray.

(** ** Python floats (binary64) *)

(** [float(n)] for an integer within the 63-bit range. *)
Definition float_of_Z (n : Z) : float :=
  if n <? 0 then PrimFloat.opp (PrimFloat.of_uint63 (Uint63.of_Z (- n)))
  else PrimFloat.of_uint63 (Uint63.of_Z n).

(** [a / b] on Python floats: division by zero raises. *)
Definition py_div (a b : float) : result float :=
  if PrimFloat.eqb b 0%float then Raise ZeroDivisionError
  else Ok (PrimFloat.div a b).

(** [ceil(x)] of a finite float, as an integer. *)
Definition float_ceil (x : float) : option Z :=
  match Prim2SF x with
  | S754_zero _ => Some 0
  | S754_finite s m e =>
      let v := if s then Z.neg m else Z.pos m in
      Some (if 0 <=? e then v * 2 ^ e else - ((- v) / 2 ^ (- e)))
  | S754_infinity _ | S754_nan => None
  end.

(** Length of [np.arange(start, stop, step)] for floats:
    [ceil((stop - start) / step)], at least 0; a quotient that is not
    finite is refused. *)
Definition arange_len (start stop step : float) : result Z :=
  match float_ceil (PrimFloat.div (PrimFloat.sub stop start) step) with
  | Some n => Ok (Z.max 0 n)
  | None => Raise ValueError
  end.

(** [np.arange(0.0, stop, step)]: the values [0.0 + i * step]. *)
Definition arange0 (stop step : float) : result (list float) :=
  n ← arange_len 0%float stop step;
  Ok ((λ i : nat, PrimFloat.add 0%float (PrimFloat.mul (float_of_Z (Z.of_nat i)) step))
        <$> seq 0 (Z.to_nat n)).

(** [np.fft.rfftfreq(n, d)]: [n // 2 + 1] multiples of [1.0 / (n * d)]. *)
Definition rfftfreq (n : Z) (d : float) : result (list float) :=
  val ← py_div 1%float (PrimFloat.mul (float_of_Z n) d);
  Ok ((λ i : nat, PrimFloat.mul (float_of_Z (Z.of_nat i)) val)
        <$> seq 0 (Z.to_nat (n / 2 + 1))).

(** [a.max()] of a float array: [nan] wins, an empty array is refused. *)
Definition np_max (a : list float) : result float :=
  match a with
  | [] => Raise ValueError
  | x :: a' =>
      Ok (foldl (λ m y, if PrimFloat.is_nan m then m
                        else if PrimFloat.is_nan y then y
                        else if PrimFloat.ltb m y then y else m) x a')
  end.

(** [np.diff(a)] *)
Fixpoint np_diff (a : list float) : list float :=
  match a with
  | x :: (y :: _) as a' => PrimFloat.sub y x :: np_diff a'
  | _ => []
  end.

(** ** The container *)

(** An entry of the input list: an array (of samples), or something
    else. *)
Inductive entry : Set :=
| Array (samples : list float)
| NotArray.

(** The fields the constructor sets; [None] is Python's [None].  The
    transformed samples are not carried, only their count per channel. *)
Record t : Set := Make {
  data_res_arr_input : list entry;
  nchannels   : nat;
  data_length : option Z;
  _dt   : option float;
  _Tobs : option float;
  _df   : option float;
  _fmax : float;
  _f_arr : list float }.

(** What [data_res_in] can be. *)
Inductive data_in : Set :=
| Channels (cs : list entry)   (* a list, or the rows of an array *)
| Container (c : t).           (* another [DataResidualArray] *)

(** [_check_inputs(dt, f_arr, df)] *)
Definition _check_inputs (dt : option float) (f_arr : option (list float))
    (df : option float) : result unit :=
  let number_of_none := 0 in
  let number_of_none := number_of_none + (if dt is None then 1 else 0) in
  let number_of_none := number_of_none + (if f_arr is None then 1 else 0) in
  let number_of_none := number_of_none + (if df is None then 1 else 0) in
  if number_of_none =? 3 then Raise ValueError
  else if number_of_none =? 1 then Raise ValueError
  else Ok ().

(** The loop of the [data_res_arr] setter: every entry must be an array,
    and all of the length of the first. *)
Fixpoint scan_channels (data_length : option Z) (cs : list entry)
  : result (option Z) :=
  match cs with
  | [] => Ok data_length
  | Array samples :: cs' =>
      let n := Z.of_nat (length samples) in
      match data_length with
      | None => scan_channels (Some n) cs'
      | Some m => if n =? m then scan_channels data_length cs'
                  else Raise AssertionError
      end
  | NotArray :: _ => Raise ValueError
  end.

(** The [data_res_arr] setter: [(nchannels, data_length)]. *)
Definition set_data_res_arr (cs : list entry) : result (nat * option Z) :=
  data_length ← scan_channels None cs;
  Ok (length cs, data_length).

(** [self.data_length] where a number is needed. *)
Definition the_length (data_length : option Z) : result Z :=
  match data_length with Some n => Ok n | None => Raise TypeError end.

(** [_store_time_and_frequency_information(dt, f_arr, df)], from the
    channel count and length that the setter has stored. *)
Definition _store_time_and_frequency_information
    (cs : list entry) (nch : nat) (len0 : option Z)
    (dt : option float) (f_arr : option (list float)) (df : option float)
  : result t :=
  '(c : t) ←
    match dt, df, f_arr with
    | Some dt, _, _ =>
        n ← the_length len0;
        let Tobs := PrimFloat.mul (float_of_Z n) dt in
        df' ← py_div 1%float Tobs;
        fmax ← py_div 1%float (PrimFloat.mul 2%float dt);
        f ← rfftfreq n dt;
        (* transform data *)
        if n <=? 0 then Raise ValueError
        else Ok (Make cs nch (Some (n / 2 + 1))
                   (Some dt) (Some Tobs) (Some df') fmax f)
    | None, Some df, _ =>
        Tobs ← py_div 1%float df;
        n ← the_length len0;
        let fmax := PrimFloat.mul (float_of_Z (n - 1)) df in
        dt' ← py_div 1%float (PrimFloat.mul 2%float fmax);
        f ← arange0 fmax df;
        Ok (Make cs nch len0 (Some dt') (Some Tobs) (Some df) fmax f)
    | None, None, Some f =>
        fmax ← np_max f;
        d0 ← match np_diff f with d0 :: _ => Ok d0 | [] => Raise IndexError end;
        (* constant spacing *)
        if forallb (λ d, PrimFloat.eqb d d0) (np_diff f) then
          if match f with f0 :: _ => PrimFloat.eqb f0 0%float | [] => false end then
            Tobs ← py_div 1%float d0;
            Ok (Make cs nch len0
                  (Some (PrimFloat.div 1%float (PrimFloat.mul 2%float fmax)))
                  (Some Tobs) (Some d0) fmax f)
          else Ok (Make cs nch len0 None None (Some d0) fmax f)
        else Ok (Make cs nch len0 None None None fmax f)
    | None, None, None => Raise AttributeError
    end;
  if bool_decide (Some (Z.of_nat (length (_f_arr c))) ≠ data_length c)
  then Raise ValueError
  else Ok c.

(** [DataResidualArray(data_res_in, dt=..., f_arr=..., df=...)] *)
Definition __init__ (data_res_in : data_in) (dt : option float)
    (f_arr : option (list float)) (df : option float) : result t :=
  match data_res_in with
  | Container c => Ok c
  | Channels cs =>
      _ ← _check_inputs dt f_arr df;
      '(nch, data_length) ← set_data_res_arr cs;
      _store_time_and_frequency_information cs nch data_length dt f_arr df
  end.

(** How many of the three arguments are supplied. *)
Definition supplied (dt : option float) (f_arr : option (list float))
    (df : option float) : nat :=
  ((if dt is Some _ then 1 else 0) + (if f_arr is Some _ then 1 else 0)
   + (if df is Some _ then 1 else 0))%nat.

(** 0.1 as a binary64 number. *)
Definition tenth : float := 0x1.999999999999ap-4%float.

(** An entry is an array of [L] samples. *)
Definition channel_of (L : Z) (e : entry) : Prop :=
  ∃ samples, e = Array samples ∧ Z.of_nat (length samples) = L.

(** ** The properties of the container *)

(** [dt], [Tobs] and [df] raise when the value could not be determined. *)
Definition dt (c : t) : result float :=
  match _dt c with Some x => Ok x | None => Raise ValueError end.

Definition Tobs (c : t) : result float :=
  match _Tobs c with Some x => Ok x | None => Raise ValueError end.

Definition df (c : t) : result float :=
  match _df c with Some x => Ok x | None => Raise ValueError end.

Definition fmax (c : t) : float := _fmax c.

Definition f_arr (c : t) : list float := _f_arr c.

Definition frequency_arr (c : t) : list float := _f_arr c.

End DataResidualArray.

(* ===================================================================== *)
(** * [lisatools/pipeline/pipeline.py]: the run context and the runner    *)
(* ===================================================================== *)

Module InfoManager.

(** The Python values that the run context holds. *)
#[local] Unset Elimination Schemes.
Inductive pyval : Set :=
| PNone
| PInt (z : Z)
| PFloat (x : float)
| PStr (s : string)
| PList (items : list pyval).
#[local] Set Elimination Schemes.

(** [len(v)] *)
Definition py_len (v : pyval) : result Z :=
  match v with
  | PList items => Ok (Z.of_nat (length items))
  | PStr s => Ok (Z.of_nat (String.length s))
  | PNone | PInt _ | PFloat _ => Raise TypeError
  end.

(** [v[0]] *)
Definition py_first (v : pyval) : result pyval :=
  match v with
  | PList (x :: _) => Ok x
  | PList [] => Raise IndexError
  | PStr (String c _) => Ok (PStr (String c EmptyString))
  | PStr EmptyString => Raise IndexError
  | PNone | PInt _ | PFloat _ => Raise TypeError
  end.

(** The object is its attribute dictionary. *)
Abbreviation obj := (gmap string pyval).

(** The setter of the [data] property, statement by statement: what was
    assigned before an exception stays assigned. *)
Definition set_data (data : pyval) (self : obj) : obj * result unit :=
  match py_len data with
  | Raise e => (self, Raise e)
  | Ok n =>
      let self := <["nchannels" := PInt n]> self in
      match d0 ← py_first data; py_len d0 with
      | Raise e => (self, Raise e)
      | Ok m =>
          let self := <["data_length" := PInt m]> self in
          (<["_data" := data]> self, Ok ())
      end
  end.

(** The getter of the [data] property. *)
Definition data (self : obj) : result pyval :=
  match self !! "_data" with Some v => Ok v | None => Raise AttributeError end.

(** [setattr(self, key, value)]: [data] is a property, every other name
    an entry of the dictionary. *)
Definition setattr (key : string) (value : pyval) (self : obj)
  : obj * result unit :=
  if String.eqb key "data" then set_data value self
  else (<[key := value]> self, Ok ()).

(** [getattr(self, key)] for a name that is not a property. *)
Definition getattr (key : string) (self : obj) : result pyval :=
  match self !! key with Some v => Ok v | None => Raise AttributeError end.

(** [for key, value in kwargs.items(): setattr(self, key, value)] *)
Fixpoint set_all (kwargs : list (string * pyval)) (self : obj)
  : obj * result unit :=
  match kwargs with
  | [] => (self, Ok ())
  | (key, value) :: kwargs' =>
      match setattr key value self with
      | (self, Ok _) => set_all kwargs' self
      | (self, Raise e) => (self, Raise e)
      end
  end.

(** [InfoManager(name, data, dt, T, fd, **kwargs)]: the object, unless the
    constructor raises. *)
Definition __init__ (name data dt T fd : pyval) (kwargs : list (string * pyval))
  : result obj :=
  let self : obj := <["name" := name]> ∅ in
  let self := <["fd" := fd]> (<["T" := T]> (<["dt" := dt]> self)) in
  match set_data data self with
  | (_, Raise e) => Raise e
  | (self, Ok _) =>
      match set_all kwargs self with
      | (_, Raise e) => Raise e
      | (self, Ok _) => Ok self
      end
  end.

Definition update_info (data : pyval) (self : obj) : obj * result unit :=
  set_data data self.

(** ** What the stages publish and what they open *)

(** [MBHBase.update_information(info_manager, fp)], for a stage created
    with the given [search] flag. *)
Definition MBHBase_update_information (search : bool) (fp : pyval)
    (info_manager : obj) : obj * result unit :=
  if search then setattr "fp_search_init" fp info_manager
  else setattr "fp_pe" fp info_manager.

(** [MBHRelBinSearch.update_information(info_manager, fp_search)] *)
Definition MBHRelBinSearch_update_information (fp_search : pyval)
    (info_manager : obj) : obj * result unit :=
  setattr "fp_search" fp_search info_manager.

(** [MBHRelBinPE.update_information(info_manager, fp_pe)] *)
Definition MBHRelBinPE_update_information (fp_pe : pyval)
    (info_manager : obj) : obj * result unit :=
  setattr "fp_pe" fp_pe info_manager.

(** The store that [update_module] opens: [info_manager.fp_search_init] in
    [MBHBase] (when not searching) and in [MBHRelBinSearch],
    [info_manager.fp_search] in [MBHRelBinPE]. *)
Definition MBHBase_reader_path (info_manager : obj) : result pyval :=
  getattr "fp_search_init" info_manager.

Definition MBHRelBinSearch_reader_path (info_manager : obj) : result pyval :=
  getattr "fp_search_init" info_manager.

Definition MBHRelBinPE_reader_path (info_manager : obj) : result pyval :=
  getattr "fp_search" info_manager.

End InfoManager.

Module PipelineGuide.

Section Guide.

(** What the modules act on (the run context, their own fields, the files
    of the sampler) and the keywords handed to [update_module]. *)
Context {St K : Type}.

(** The world of a run: the lines printed so far, and the rest. *)
Record world : Type := World {
  stdout : list string;
  state  : St }.

(** A pipeline module, as [run] uses it. *)
Record module : Type := Module_ {
  name          : option string;
  update_module : K → world → world * result unit;
  run_module    : bool → world → world * result unit }.

Definition print (line : string) (w : world) : world :=
  {| stdout := stdout w ++ [line]; state := state w |}.

(** ["<what> module {}".format(i)], followed by [": {}".format(name)]
    when the module has a name. *)
Definition banner (what : string) (i : nat) (m : module) : string :=
  (what +:+ " module " +:+ pretty i +:+
   match name m with Some n => ": " +:+ n | None => "" end)%string.

(** The loop of [run], from the module of number [i] on. *)
Fixpoint run_from (i : nat) (module_list : list module)
    (progress verbose : bool) (update_kwargs : K) (w : world)
  : world * result unit :=
  match module_list with
  | [] => (w, Ok ())
  | m :: rest =>
      let w := if verbose then print (banner "starting" i m) w else w in
      match update_module m update_kwargs w with
      | (w, Raise e) => (w, Raise e)
      | (w, Ok _) =>
          match run_module m progress w with
          | (w, Raise e) => (w, Raise e)
          | (w, Ok _) =>
              let w := if verbose then print (banner "finished" i m) w else w in
              run_from (S i) rest progress verbose update_kwargs w
          end
      end
  end.

Definition run (module_list : list module) (progress verbose : bool)
    (update_kwargs : K) (w : world) : world * result unit :=
  run_from 0 module_list progress verbose update_kwargs w.

(** A module that prints nothing itself. *)
Definition silent (m : module) : Prop :=
  (∀ kw w, stdout (update_module m kw w).1 = stdout w) ∧
  (∀ p w, stdout (run_module m p w).1 = stdout w).

(** The lines that a verbose run prints for its modules, numbered from
    [i]. *)
Fixpoint banners (i : nat) (module_list : list module) : list string :=
  match module_list with
  | [] => []
  | m :: rest => banner "starting" i m :: banner "finished" i m :: banners (S i) rest
  end.

End Guide.

Arguments world : clear implicits.
Arguments module : clear implicits.

(** Two modules over a counter: one that adds to it, one whose
    [update_module] raises. *)
Definition adder (n : nat) : module nat unit :=
  {| name := Some "add"%string;
     update_module := λ _ w, (w, Ok ());
     run_module := λ _ w, ({| stdout := stdout w; state := (state w + n)%nat |}, Ok ()) |}.

Definition broken : module nat unit :=
  {| name := None;
     update_module := λ _ w, (w, Raise AttributeError);
     run_module := λ _ w, ({| stdout := stdout w; state := 0%nat |}, Ok ()) |}.

End PipelineGuide.

(* ===================================================================== *)
(** * Slices                                                              *)
(* ===================================================================== *)

Section Slices.
Context {A : Type}.
Implicit Types (l : list A) (ps : list nat).

Lemma pick_nil l : pick l [] = [].
Proof. done. Qed.

(** With every position in range, picking is position-wise. *)
Lemma pick_lookup l ps j :
  Forall (λ i, (i < length l)%nat) ps →
  pick l ps !! j = ps !! j ≫= (l !!.).
Proof.
  intros Hall. revert j. induction Hall as [|i ps Hi _ IH]; intros j; [done|].
  unfold pick in *. cbn.
  destruct (lookup_lt_is_Some_2 l i Hi) as [x Hx]. rewrite Hx. cbn.
  destruct j as [|j]; cbn; [done|]. apply IH.
Qed.

Lemma pick_length l ps :
  Forall (λ i, (i < length l)%nat) ps → length (pick l ps) = length ps.
Proof.
  induction 1 as [|i ps Hi _ IH]; [done|].
  unfold pick in *. cbn.
  destruct (lookup_lt_is_Some_2 l i Hi) as [x ->]. cbn. by rewrite IH.
Qed.

Lemma pick_seq_drop l (i n : nat) :
  (i + n = length l)%nat → pick l (seq i n) = drop i l.
Proof.
  revert i. induction n as [|n IH]; intros i Hlen; cbn.
  - rewrite drop_ge; [done | lia].
  - unfold pick in *. cbn.
    destruct (lookup_lt_is_Some_2 l i) as [x Hx]; [lia|]. rewrite Hx. cbn.
    rewrite (drop_S _ _ _ Hx). f_equal. apply IH. lia.
Qed.

Lemma positions_lookup (start step : Z) (count j : nat) :
  positions start step count !! j =
    if decide (j < count)%nat then Some (Z.to_nat (start + Z.of_nat j * step))
    else None.
Proof.
  unfold positions. rewrite list_lookup_fmap.
  case_decide.
  - by rewrite lookup_seq_lt.
  - rewrite lookup_seq_ge; [done | lia].
Qed.

Lemma count_of_lt (start stop step : Z) (j : nat) :
  1 ≤ step →
  (j < count_of start stop step)%nat ↔ start + Z.of_nat j * step < stop.
Proof.
  intros Hstep. unfold count_of.
  destruct (Z.leb_spec stop start) as [Hle | Hlt].
  - split; [lia | nia].
  - pose proof (Z.div_mod (stop - start - 1) step ltac:(lia)) as Hdm.
    pose proof (Z.mod_pos_bound (stop - start - 1) step ltac:(lia)) as Hmod.
    assert (0 ≤ (stop - start - 1) / step) by (apply Z.div_pos; lia).
    split; intros H'; nia.
Qed.

(** A forward slice with non-negative bounds selects the entries
    [start, start + step, ...] below [stop] and the length. *)
Lemma forward_slice_lookup l (start stop step : Z) (j : nat) :
  0 ≤ start → 0 ≤ stop → 1 ≤ step →
  let len := Z.of_nat (length l) in
  pick l (positions (adjust len step start) step
            (count_of (adjust len step start) (adjust len step stop) step)) !! j =
    if decide (start + Z.of_nat j * step < Z.min stop len)
    then l !! Z.to_nat (start + Z.of_nat j * step)
    else None.
Proof.
  intros Hs He Hstep len.
  assert (Hadj : ∀ i, 0 ≤ i → adjust len step i = Z.min i len).
  { intros i Hi. unfold adjust.
    destruct (Z.ltb_spec i 0); [lia|].
    destruct (Z.leb_spec len i); [|lia].
    destruct (Z.ltb_spec step 0); lia. }
  rewrite !Hadj by done.
  set (s := Z.min start len). set (e := Z.min stop len).
  rewrite pick_lookup.
  - rewrite positions_lookup.
    case_decide as Hj.
    + apply count_of_lt in Hj; [|done]. cbn.
      assert (s = start) as Hss by (subst s e; nia).
      rewrite decide_True by (subst s e; nia).
      by rewrite Hss.
    + rewrite count_of_lt in Hj by done. cbn.
      case_decide as Hc; [|done]. subst s e. nia.
  - apply Forall_forall. intros i (k & Hk)%list_elem_of_lookup_1.
    rewrite positions_lookup in Hk. case_decide as Hj; [|done].
    injection Hk as <-. apply count_of_lt in Hj; [|done].
    assert (0 ≤ s + Z.of_nat k * step < Z.of_nat (length l)) by (subst s e len; nia).
    lia.
Qed.

End Slices.

(** Reading a dataset through a slice of step at least 1 is numpy slicing
    of its entries. *)
Lemma getitem_np_slice (s : slice) (d : dataset) (step : Z) :
  sl_step s = Some step → 1 ≤ step →
  getitem (BySlice s) d = np_slice (ds_rows d) s.
Proof.
  intros Hstep Hpos. unfold getitem, np_slice, indices, ds_len.
  rewrite Hstep. cbn.
  destruct (Z.eqb_spec step 0); [lia|]. cbn.
  destruct (Z.ltb_spec step 1); [lia|]. destruct (Z.ltb_spec step 0); [lia|]. done.
Qed.

(* ===================================================================== *)
(** * Properties of the checkpoint store                                  *)
(* ===================================================================== *)

Section Store.
Import HDFBackend.

(** ** [reset] *)

(** C5.  A [reset] call in which [num_bands] or [band_edges] is absent
    raises the configuration error ([ValueError]) and leaves the store
    exactly as it was. *)
Theorem reset_requires_band_arguments
    (nwalkers ntemps : Z) (nb : option Z) (edges : option (list scalar))
    (b : backend) :
  nb = None ∨ edges = None →
  reset nwalkers ntemps nb edges b = (b, Raise ValueError).
Proof.
  intros [-> | ->]; [done|]. by destruct nb.
Qed.

(** On the running example: a [reset] without [num_bands] changes nothing. *)
Lemma reset_requires_band_arguments_witness :
  reset 4 2 None (Some Example.edges) Example.grown
    = (Example.grown, Raise ValueError).
Proof. apply reset_requires_band_arguments. by left. Defined.

(** A returning [reset] leaves the compression setting alone and the
    file as [after_reset] describes. *)
Lemma reset_ok_inv nwalkers ntemps nb edges b b' :
  reset nwalkers ntemps (Some nb) (Some edges) b = (b', Ok ()) →
  compression b' = compression b ∧
  ∃ g, h5file b' = Some g ∧ after_reset edges (compression b) g.
Proof.
  unfold reset, create_dataset, of_shape. cbn.
  destruct (0 <=? nb) eqn:Hnb; cbn; [|done].
  destruct (0 <=? ntemps) eqn:Hnt; cbn; [|done].
  destruct (0 <=? ntemps - 1) eqn:Hnt1; cbn; [|done].
  destruct (0 <=? nwalkers) eqn:Hnw; cbn; [|done].
  intros [= <-]. cbn. split; [done|].
  eexists. split; [done|]. unfold after_reset; cbn.
  split; [done|]. split; [done|]. split; [done|].
  eexists. split; [done|]. cbn. split; [by rewrite lookup_insert_eq|].
  by eexists _, _, _.
Qed.

(** ** The properties [num_bands] and [band_edges] *)

(** After a successful [reset] the [num_bands] property returns the
    number of band edges, whatever [num_bands] was passed. *)
Lemma num_bands_after_reset nwalkers ntemps nb edges b b' :
  reset nwalkers ntemps (Some nb) (Some edges) b = (b', Ok ()) →
  num_bands b' = Ok (Z.of_nat (length edges)).
Proof.
  intros (_ & g & Hg & _ & _ & _ & bi & Hbi & Hnb & _)%reset_ok_inv.
  unfold num_bands, group_of, band_of, attr. rewrite Hg. cbn.
  rewrite Hbi. cbn. by rewrite Hnb.
Qed.

(** After a successful [reset] the [band_edges] property finds no
    attribute to return. *)
Lemma band_edges_after_reset nwalkers ntemps nb edges b b' :
  reset nwalkers ntemps (Some nb) (Some edges) b = (b', Ok ()) →
  band_edges b' = Raise KeyError.
Proof.
  intros (_ & g & Hg & _ & Hnb & _)%reset_ok_inv.
  unfold band_edges, group_of, attr. rewrite Hg. cbn. by rewrite Hnb.
Qed.

(** C2.  After [reset(4, ntemps=2, num_bands=3, band_edges=[0,1,2,3])]
    the [num_bands] property is 4, the number of edges, not the 3 that
    was passed, and the [band_edges] property raises [KeyError] instead of
    returning the edges. *)
Theorem reset_properties_do_not_round_trip :
  (reset 4 2 (Some 3) (Some Example.edges) (fresh false)).2 = Ok () ∧
  num_bands Example.plain = Ok 4 ∧
  band_edges Example.plain = Raise KeyError.
Proof.
  assert (H : reset 4 2 (Some 3) (Some Example.edges) (fresh false)
              = (Example.plain, Ok ())) by done.
  split; [done|]. split.
  - by rewrite (num_bands_after_reset _ _ _ _ _ _ H).
  - by rewrite (band_edges_after_reset _ _ _ _ _ _ H).
Qed.

(** ** Reads before the store has data *)

(** C6.  On a store that was never reset, and on a store whose iteration
    counter is not positive, [get_value] (for every name, with or without
    [slice_vals]) and [get_band_info] raise the not-initialized error
    ([AttributeError]); nothing is returned. *)
Theorem reads_need_committed_data
    (name : string) (thin discard : Z) (othin odiscard : option Z)
    (slice_vals : option selector) (b : backend) :
  h5file b = None ∨ (∃ it, iteration b = Ok it ∧ it ≤ 0) →
  get_value name thin discard slice_vals b = Raise AttributeError ∧
  get_band_info othin odiscard slice_vals b = Raise AttributeError.
Proof.
  assert (Hgen : ∀ name thin discard,
    h5file b = None ∨ (∃ it, iteration b = Ok it ∧ it ≤ 0) →
    get_value name thin discard slice_vals b = Raise AttributeError).
  { clear. intros name thin discard [Hnone | (it & Hit & Hle)].
    - unfold get_value, initialized. by rewrite Hnone.
    - unfold get_value, super_get_value, initialized, iteration in *.
      destruct (h5file b) as [g|] eqn:Hg; [|done]. cbn in *.
      unfold group_of in *. rewrite Hg in *. cbn in *.
      destruct (attr "iteration" (g_attrs g)) as [it'|] eqn:Hattr; [|done].
      injection Hit as ->. cbn.
      assert ((it <=? 0) = true) as Hle' by lia.
      destruct (String.eqb name "band_info"); cbn.
      + destruct slice_vals; cbn; rewrite ?Hattr; cbn; by rewrite Hle'.
      + rewrite ?Hattr; cbn. by rewrite Hle'. }
  intros H. split; [by apply Hgen|]. unfold get_band_info. by apply Hgen.
Qed.

(** On the running example: the store has been grown, nothing is committed. *)
Lemma reads_need_committed_data_witness :
  get_value "band_info" 1 0 None Example.grown = Raise AttributeError ∧
  get_band_info None None None Example.grown = Raise AttributeError.
Proof.
  apply reads_need_committed_data. right. exists 0. split; [reflexivity | lia].
Defined.

(** ** [grow] *)

Lemma resize_len n d d' :
  0 ≤ n → resize n d = Ok d' → ds_len d' = Z.to_nat n.
Proof.
  intros Hn. unfold resize.
  repeat case_match; try done; intros [= <-];
    unfold ds_len; cbn; by rewrite length_resize.
Qed.

Lemma resize_each_names n ms ms' r :
  resize_each n ms = (ms', r) → ms'.*1 = ms.*1.
Proof.
  revert ms' r. induction ms as [|[k d] ms IH]; intros ms' r; cbn.
  - by intros [= <- <-].
  - destruct (resize n d) as [d'|e]; [|by intros [= <- <-]].
    destruct (resize_each n ms) as [ms'' r'] eqn:Hrec.
    intros [= <- <-]. cbn. f_equal. by eapply IH.
Qed.

Lemma resize_each_ok n ms ms' :
  0 ≤ n → resize_each n ms = (ms', Ok ()) →
  Forall (λ kd, ds_len kd.2 = Z.to_nat n) ms'.
Proof.
  intros Hn. revert ms'. induction ms as [|[k d] ms IH]; intros ms'; cbn.
  - intros [= <-]. constructor.
  - destruct (resize n d) as [d'|e] eqn:Hd; [|done].
    destruct (resize_each n ms) as [ms'' r'] eqn:Hrec.
    intros [= <- ->]. constructor; [|by apply IH].
    cbn. by eapply resize_len.
Qed.

(** Without a compression filter the [band_edges] dataset is not chunked,
    and it is the first member that the loop of [grow] resizes: after a
    successful [reset], [grow] raises. *)
Lemma grow_uncompressed_raises nwalkers ntemps nb edges n b0 b :
  reset nwalkers ntemps (Some nb) (Some edges) b0 = (b, Ok ()) →
  compression b0 = false →
  0 ≤ n →
  (grow n b).2 = Raise TypeError.
Proof.
  intros (_ & g & Hg & Hit & _ & Hbase & bi & Hbi & _ & (i3 & i2 & iw & Hms))%reset_ok_inv
    Hc Hn.
  unfold grow, super_grow, get_band, get_group, put_band, put_group, lift,
    group_of, band_of, attr, mbind, io_bind.
  cbn. rewrite Hg. cbn. rewrite Hbase. cbn.
  change (Z.of_nat 0 + n) with n.
  assert ((n <? 0) = false) as -> by lia. cbn.
  rewrite Hit, Hbi. cbn. rewrite Hms, Hc. cbn. done.
Qed.

(** [grow] on a store whose [band_edges] dataset, the first member of the
    diagnostics group, is not chunked: the loop stops at it. *)
Lemma grow_on_fixed_edges n b g it bi d rest :
  h5file b = Some g →
  g_attrs g !! "iteration" = Some it →
  g_band_info g = Some bi →
  bi_members bi = ("band_edges"%string, d) :: rest →
  ds_chunked d = false →
  grow n b =
    if Z.of_nat (length (g_base g)) + n <? 0 then (b, Raise ValueError)
    else ({| compression := compression b;
             h5file := Some {| g_attrs := g_attrs g;
                               g_base := list.resize
                                 (Z.to_nat (Z.of_nat (length (g_base g)) + n)) []
                                 (g_base g);
                               g_band_info :=
                                 Some {| bi_attrs := bi_attrs bi;
                                         bi_members := bi_members bi |} |} |},
          Raise TypeError).
Proof.
  intros Hg Hit Hbi Hms Hd.
  unfold grow, super_grow, get_band, get_group, put_band, put_group, lift,
    group_of, band_of, attr, mbind, io_bind.
  cbn. rewrite Hg. cbn.
  destruct (Z.of_nat (length (g_base g)) + n <? 0); cbn; [done|].
  rewrite Hit, Hbi. cbn. rewrite Hms. cbn [resize_each].
  unfold resize. rewrite Hd. cbn. done.
Qed.

Lemma write_band_info_head it entries d rest :
  ∃ rest', (write_band_info it entries (("band_edges"%string, d) :: rest)).1
           = ("band_edges"%string, d) :: rest'.
Proof.
  revert rest. induction entries as [|[name [shape data|]] entries IH]; intros rest.
  - by exists rest.
  - cbn. destruct (String.eqb name "band_edges") eqn:Hname; [apply IH|].
    destruct (lookup_member name rest) as [d0|]; [|by exists rest].
    destruct (set_row it shape data d0) as [d1|e]; [|by exists rest].
    apply IH.
  - cbn. apply IH.
Qed.

(** Through a run on a store without compression filter, the
    [band_edges] dataset stays the first member of the diagnostics group,
    and stays as fixed in size as [reset] has created it. *)
Lemma run_store_band_edges b :
  run_store false b →
  ∃ g it bi d rest,
    h5file b = Some g ∧ g_attrs g !! "iteration" = Some it ∧
    g_band_info g = Some bi ∧
    bi_members bi = ("band_edges"%string, d) :: rest ∧
    ds_chunked d = false.
Proof.
  induction 1 as [nwalkers ntemps nb edges b0 b Hc Hreset
                 | n b _ (g & it & bi & d & rest & Hg & Hit & Hbi & Hms & Hd)
                 | state b _ (g & it & bi & d & rest & Hg & Hit & Hbi & Hms & Hd)].
  - destruct (reset_ok_inv _ _ _ _ _ _ Hreset)
      as (_ & g & Hg & Hit & _ & _ & bi & Hbi & _ & i3 & i2 & iw & Hms).
    rewrite Hc in Hms. eexists g, 0, bi, _, _. by rewrite Hms.
  - rewrite (grow_on_fixed_edges n b g it bi d rest) by done.
    destruct (Z.of_nat (length (g_base g)) + n <? 0); cbn.
    + by eexists g, it, bi, d, rest.
    + eexists _, it, _, d, rest. split; [reflexivity|]. by cbn.
  - unfold save_step, super_save_step, get_band, get_group, put_band, put_group,
      lift, num_bands, group_of, band_of, attr, mbind, io_bind.
    cbn. rewrite Hg. cbn. rewrite Hit. cbn.
    destruct ((it <? 0) || (Z.of_nat (length (g_base g)) <=? it)); cbn.
    { by eexists g, it, bi, d, rest. }
    rewrite lookup_insert_eq. cbn. rewrite Hbi. cbn.
    destruct (bi_attrs bi !! "num_bands") as [nbands|]; cbn.
    2:{ eexists _, (it + 1), bi, d, rest. split; [reflexivity|].
        cbn. by rewrite lookup_insert_eq. }
    rewrite Hms.
    destruct (write_band_info_head (it + 1 - 1) (band_info state) d rest)
      as (rest' & Hhead).
    destruct (write_band_info _ _ _) as [ms r]. cbn in Hhead. subst ms.
    destruct r as [[]|e]; cbn;
      (eexists _, (it + 1), _, d, rest'; split; [reflexivity|];
       cbn; by rewrite lookup_insert_eq).
Qed.

(** C1 (code bug).  The loop of [grow] resizes every member of the
    diagnostics group, the [band_edges] dataset included, which [reset]
    has created with a fixed size.  On a store that a valid [reset] has
    created without a compression filter, at any later point of the run
    (whatever has been grown and saved since, with whatever outcome),
    [grow(n)] with [n ≥ 0] raises [TypeError]: the base arrays have been
    extended by [n] entries all the same, and no array of the diagnostics
    group has been resized, so that the two families never again have one
    length once [n > 0]. *)
Theorem grow_fails_on_band_edges (b : backend) (n : Z) :
  run_store false b →
  0 ≤ n →
  ∃ b',
    grow n b = (b', Raise TypeError) ∧
    base_len b' = (base_len b + Z.to_nat n)%nat ∧
    band_members b' = band_members b ∧
    iteration b' = iteration b.
Proof.
  intros (g & it & bi & d & rest & Hg & Hit & Hbi & Hms & Hd)%run_store_band_edges Hn.
  rewrite (grow_on_fixed_edges n b g it bi d rest) by done.
  destruct (Z.ltb_spec (Z.of_nat (length (g_base g)) + n) 0) as [Hneg|_]; [lia|].
  eexists. split; [done|].
  unfold base_len, band_members, iteration, group_of, attr. rewrite Hg. cbn.
  rewrite Hbi, length_resize. split; [lia|done].
Qed.

(** On the running example without compression: [grow(5)] has raised
    after [reset]; a second call, [grow(2)], raises again, with the base
    arrays at 7 entries and the diagnostics arrays at none. *)
Lemma grow_fails_on_band_edges_witness :
  ∃ b',
    grow 2 Example2.half_grown = (b', Raise TypeError) ∧
    base_len b' = (base_len Example2.half_grown + Z.to_nat 2)%nat ∧
    band_members b' = band_members Example2.half_grown ∧
    iteration b' = iteration Example2.half_grown.
Proof.
  apply (grow_fails_on_band_edges Example2.half_grown 2).
  - apply (run_grow false 5 Example.plain).
    apply (run_reset false 4 2 3 Example.edges (fresh false) Example.plain);
      reflexivity.
  - lia.
Defined.

(** The first [grow] after a [reset].  With [n ≥ 0] it extends the base
    arrays to length [n] whether or not it returns; it keeps the members
    of the diagnostics group; and when it returns, every member of the
    diagnostics group has the axis-0 length of the base arrays. *)
Lemma grow_after_reset
    (nwalkers ntemps nb : Z) (edges : list scalar) (n : Z)
    (b0 b b' : backend) (r : result unit) :
  reset nwalkers ntemps (Some nb) (Some edges) b0 = (b, Ok ()) →
  0 ≤ n →
  grow n b = (b', r) →
  base_len b' = Z.to_nat n ∧
  (band_members b').*1 = (band_members b).*1 ∧
  (r = Ok () → ∀ k d, (k, d) ∈ band_members b' → ds_len d = base_len b').
Proof.
  intros (_ & g & Hg & Hit & _ & Hbase & bi & Hbi & _ & _)%reset_ok_inv Hn.
  unfold grow, super_grow, get_band, get_group, put_band, put_group, lift,
    group_of, band_of, attr, base_len, band_members, mbind, io_bind.
  cbn. rewrite Hg. cbn. rewrite Hbase. cbn.
  change (Z.of_nat 0 + n) with n.
  assert ((n <? 0) = false) as -> by lia. cbn.
  rewrite Hit, Hbi. cbn.
  rewrite Z.add_0_l.
  destruct (resize_each n (bi_members bi)) as [ms r'] eqn:Hrs. cbn.
  intros [= <- <-]. cbn.
  split; [by rewrite length_resize|].
  split; [by eapply resize_each_names|].
  intros -> k d Hin. rewrite length_resize.
  apply resize_each_ok in Hrs; [|done].
  rewrite Forall_forall in Hrs. by apply (Hrs (k, d)).
Qed.

(** On the running example, with a compression filter: [grow(2)] returns. *)
Lemma grow_after_reset_witness :
  base_len Example.grown = 2%nat ∧
  (band_members Example.grown).*1 = (band_members Example.packed).*1 ∧
  (Ok () = Ok () →
   ∀ k d, (k, d) ∈ band_members Example.grown → ds_len d = base_len Example.grown).
Proof.
  apply (grow_after_reset 4 2 3 Example.edges 2 (fresh true) Example.packed
           Example.grown (Ok ())).
  - reflexivity.
  - lia.
  - reflexivity.
Defined.

(** On the running example without compression: after
    [reset(4, ntemps=2, num_bands=3, band_edges=[0,1,2,3])] the call
    [grow(5)] raises, the base arrays have been extended to 5 entries,
    and the diagnostics arrays still have none: the two families are
    left at different lengths. *)
Lemma grow_partial_resize_observable :
  (reset 4 2 (Some 3) (Some Example.edges) (fresh false)).2 = Ok () ∧
  (grow 5 Example.plain).2 = Raise TypeError ∧
  base_len (grow 5 Example.plain).1 = 5%nat ∧
  ds_len <$> lookup_member "band_temps" (band_members (grow 5 Example.plain).1)
    = Some 0%nat ∧
  ¬ (∀ k d, (k, d) ∈ band_members (grow 5 Example.plain).1 →
            ds_len d = base_len (grow 5 Example.plain).1).
Proof.
  split; [reflexivity|]. split; [reflexivity|]. split; [reflexivity|].
  split; [reflexivity|].
  intros H.
  specialize (H "band_temps"%string (Dataset [] [3; 2]%nat None true)).
  discriminate H. vm_compute. do 8 apply list_elem_of_further. apply list_elem_of_here.
Qed.

(** With a compression filter the first [grow(2)] returns.  A second
    [grow(2)] returns as well, and leaves the two families out of step:
    the loop resizes to [iteration + 2], which is 2 again, while the base
    class, as the specification words it, extends its arrays by 2. *)
Lemma grow_twice_out_of_step :
  (grow 2 Example.grown).2 = Ok () ∧
  base_len (grow 2 Example.grown).1 = 4%nat ∧
  ds_len <$> lookup_member "band_temps" (band_members (grow 2 Example.grown).1)
    = Some 2%nat.
Proof. vm_compute. done. Qed.

(** ** [get_value] *)

Lemma getitem_default_slice thin discard it d :
  1 ≤ thin → 0 ≤ discard → 0 ≤ it →
  ∃ rows, getitem (default_slice thin discard it) d = Ok rows ∧
          thinned thin discard it (ds_rows d) rows.
Proof.
  intros Ht Hd Hit. unfold default_slice, thinned.
  rewrite (getitem_np_slice _ _ thin) by done.
  unfold np_slice, indices. cbn.
  destruct (Z.eqb_spec thin 0); [lia|]. cbn.
  destruct (Z.ltb_spec thin 0); [lia|].
  eexists. split; [done|]. split; [done|].
  intros j. apply forward_slice_lookup; lia.
Qed.

Lemma read_each_default_slice thin discard it ms :
  1 ≤ thin → 0 ≤ discard → 0 ≤ it →
  ∃ items, read_each (default_slice thin discard it) ms = Ok items ∧
    Forall2 (λ kd kr, kr.1 = kd.1 ∧ thinned thin discard it (ds_rows kd.2) kr.2)
      ms items.
Proof.
  intros Ht Hd Hit. induction ms as [|[k d] ms (items & Hitems & IH)].
  - exists []. split; [done | constructor].
  - destruct (getitem_default_slice thin discard it d) as (rows & Hrows & Hth);
      [done..|].
    exists ((k, rows) :: items). cbn [read_each]. rewrite Hrows, Hitems.
    split; [done|]. by constructor.
Qed.

(** C4.  On a store with at least one committed iteration, for
    [thin ≥ 1] and [discard ≥ 0], [get_value("band_info", thin, discard)]
    returns, for every array of the diagnostics group and under its name,
    the rows of the slice [discard+thin-1 : iteration : thin] of the full
    array: row [j] of the answer is row [discard+thin-1+j*thin] of the
    array as long as that index is below the iteration counter and the
    array's length.  With an explicit [slice_vals] the answer is every
    array indexed by [slice_vals], whatever [thin] and [discard] are. *)
Theorem get_value_band_info_thinning
    (b : backend) (g : group) (bi : band_group) (it thin discard : Z) :
  h5file b = Some g →
  g_attrs g !! "iteration" = Some it →
  g_band_info g = Some bi →
  1 ≤ it → 1 ≤ thin → 0 ≤ discard →
  (∃ items,
      get_value "band_info" thin discard None b = Ok (BandInfo items) ∧
      Forall2 (λ kd kr, kr.1 = kd.1 ∧ thinned thin discard it (ds_rows kd.2) kr.2)
        (bi_members bi) items) ∧
  (∀ (sel : selector) (thin' discard' : Z),
      get_value "band_info" thin' discard' (Some sel) b
        = (items ← read_each sel (bi_members bi); Ok (BandInfo items))).
Proof.
  intros Hg Hattr Hbi Hit Ht Hd.
  assert (Hle : (it <=? 0) = false) by lia.
  split.
  - destruct (read_each_default_slice thin discard it (bi_members bi))
      as (items & Hitems & Hall); [lia..|].
    exists items. split; [|done].
    unfold get_value, initialized, iteration, group_of, band_of, attr.
    rewrite Hg. cbn. rewrite Hattr. cbn. rewrite Hle, Hbi. cbn.
    by rewrite Hitems.
  - intros sel thin' discard'.
    unfold get_value, initialized, iteration, group_of, band_of, attr.
    rewrite Hg. cbn. rewrite Hattr. cbn. rewrite Hle, Hbi. done.
Qed.

(** ** [get_a_sample] *)

(** C7.  When the base class returns the base fields of the sample,
    [get_a_sample(it)] takes the diagnostics from
    [get_value("band_info", thin, discard)] with [discard = it - 1] and
    [thin = 1] if [it] is the iteration counter, [thin = iteration - it]
    otherwise; the entries under their names, with the flag
    ["initialized"], are the sample's [band_info], and an exception of
    the read is the exception of [get_a_sample]. *)
Theorem get_a_sample_band_info
    (it cur : Z) (b : backend) (base : list row) :
  iteration b = Ok cur →
  super_get_a_sample it b = Ok base →
  get_a_sample it b =
    match get_value "band_info" (if bool_decide (it = cur) then 1 else cur - it)
            (it - 1) None b with
    | Ok (BandInfo items) =>
        Ok {| sample_base := base;
              sample_band_info :=
                ((λ '(k, rows), (k, Rows rows)) <$> items)
                ++ [("initialized"%string, PyTrue)] |}
    | Ok (BaseValue _) => Raise TypeError
    | Raise e => Raise e
    end.
Proof.
  intros Hcur Hbase. unfold get_a_sample, get_band_info.
  rewrite Hbase, Hcur. cbn.
  destruct (decide (it = cur)) as [-> | Hne].
  - rewrite !bool_decide_eq_false_2 by (intros H; by apply H).
    rewrite bool_decide_eq_true_2 by done.
    by destruct (get_value _ _ _ _ _) as [[]|].
  - rewrite bool_decide_eq_true_2 by done.
    rewrite bool_decide_eq_false_2 by done.
    by destruct (get_value _ _ _ _ _) as [[]|].
Qed.

(** For an iteration before the last one, the slice that [get_a_sample]
    asks for starts at row [iteration - 2], whatever [it] is. *)
Lemma get_a_sample_earlier_rows (it cur : Z) (a rows : list row) :
  1 ≤ it → it < cur → cur ≤ Z.of_nat (length a) →
  thinned (cur - it) (it - 1) cur a rows →
  rows !! 0%nat = a !! Z.to_nat (cur - 2).
Proof.
  intros Hit Hlt Hlen [_ Hrows]. rewrite Hrows.
  rewrite decide_True by lia. f_equal. lia.
Qed.

(** ** [save_step] *)

Lemma lookup_update_member_eq k d d0 ms :
  lookup_member k ms = Some d0 →
  lookup_member k (update_member k d ms) = Some d.
Proof.
  induction ms as [|[k' d'] ms IH]; cbn; [done|].
  destruct (String.eqb k k') eqn:Hk; cbn; rewrite Hk; [done|]. apply IH.
Qed.

Lemma lookup_update_member_ne k k' d ms :
  k ≠ k' →
  lookup_member k' (update_member k d ms) = lookup_member k' ms.
Proof.
  intros Hne. induction ms as [|[k0 d0] ms IH]; cbn; [done|].
  destruct (String.eqb_spec k k0) as [<- | Hk]; cbn.
  - destruct (String.eqb_spec k' k); [congruence | done].
  - by rewrite IH.
Qed.
















(** On the running example after two steps, with [thin = 2]. *)
Lemma get_value_band_info_thinning_witness :
  (∃ items,
      get_value "band_info" 2 0 None Example.saved_twice = Ok (BandInfo items) ∧
      Forall2 (λ kd kr, kr.1 = kd.1 ∧ thinned 2 0 2 (ds_rows kd.2) kr.2)
        (bi_members (band_at Example.saved_twice)) items) ∧
  (∀ (sel : selector) (thin' discard' : Z),
      get_value "band_info" thin' discard' (Some sel) Example.saved_twice
        = (items ← read_each sel (bi_members (band_at Example.saved_twice));
           Ok (BandInfo items))).
Proof.
  apply (get_value_band_info_thinning Example.saved_twice
           (group_at Example.saved_twice) (band_at Example.saved_twice) 2 2 0).
  - vm_compute. reflexivity.
  - vm_compute. reflexivity.
  - vm_compute. reflexivity.
  - lia.
  - lia.
  - lia.
Defined.

(** On the running example after two steps, for the first iteration. *)
Lemma get_a_sample_band_info_witness :
  get_a_sample 1 Example.saved_twice =
    match get_value "band_info" (if bool_decide (1 = 2) then 1 else 2 - 1)
            (1 - 1) None Example.saved_twice with
    | Ok (BandInfo items) =>
        Ok {| sample_base := [[7]; [7]]%float;
              sample_band_info :=
                ((λ '(k, rows), (k, Rows rows)) <$> items)
                ++ [("initialized"%string, PyTrue)] |}
    | Ok (BaseValue _) => Raise TypeError
    | Raise e => Raise e
    end.
Proof.
  apply (get_a_sample_band_info 1 2 Example.saved_twice).
  - vm_compute. reflexivity.
  - vm_compute. reflexivity.
Defined.

End Store.

(* ===================================================================== *)
(** * Properties of the start-point selection                             *)
(* ===================================================================== *)

Section StartPoints.
Import Pipeline.
Implicit Types (l : list Z) (v : Z).

(** ** [np.unique] *)

Lemma elem_of_uniq_from prev l v :
  (v ∈ uniq_from prev l → v ∈ l) ∧ (v ∈ l → v = prev ∨ v ∈ uniq_from prev l).
Proof.
  revert prev. induction l as [|x l IH]; intros prev; cbn.
  - split; [done|]. by intros ?%elem_of_nil.
  - destruct (IH x) as [IH1 IH2].
    destruct (Z.eqb_spec prev x) as [-> | Hne].
    + rewrite elem_of_cons. split; [auto|]. intros [-> | Hv]; auto.
    + rewrite !elem_of_cons. split.
      * intros [-> | Hv]; auto.
      * intros [-> | Hv]; [auto|]. destruct (IH2 Hv) as [-> | Hv']; auto.
Qed.

Lemma elem_of_uniq_sorted l v : v ∈ uniq_sorted l ↔ v ∈ l.
Proof.
  destruct l as [|x l]; [done|]. cbn. rewrite !elem_of_cons.
  destruct (elem_of_uniq_from x l v) as [H1 H2]. split.
  - intros [-> | Hv]; auto.
  - intros [-> | Hv]; [auto|]. destruct (H2 Hv) as [-> | Hv']; auto.
Qed.

Lemma uniq_from_increasing prev l :
  StronglySorted Z.le (prev :: l) →
  StronglySorted Z.lt (uniq_from prev l) ∧ Forall (Z.lt prev) (uniq_from prev l).
Proof.
  revert prev. induction l as [|x l IH]; intros prev Hs; cbn.
  - split; constructor.
  - apply StronglySorted_inv in Hs as [Hs Hall].
    apply Forall_cons in Hall as [Hpx Hall].
    destruct (IH x Hs) as [IHs IHall].
    destruct (Z.eqb_spec prev x) as [-> | Hne]; [done|].
    split.
    + by constructor.
    + constructor; [lia|]. eapply Forall_impl; [exact IHall|]. cbn. lia.
Qed.

Lemma uniq_sorted_increasing l :
  Sorted Z.le l → StronglySorted Z.lt (uniq_sorted l).
Proof.
  intros Hs%(Sorted_StronglySorted _). destruct l as [|x l]; cbn; [constructor|].
  destruct (uniq_from_increasing x l Hs). by constructor.
Qed.

Lemma index_of_first v l :
  v ∈ l →
  l !! index_of v l = Some v ∧ ∀ q : nat, (q < index_of v l)%nat → l !! q ≠ Some v.
Proof.
  induction l as [|x l IH]; [by intros ?%elem_of_nil|].
  intros Hin. cbn. destruct (Z.eqb_spec x v) as [-> | Hne].
  - split; [done | lia].
  - apply elem_of_cons in Hin as [-> | Hin]; [done|].
    destruct (IH Hin) as [IH1 IH2]. split; [done|].
    intros [|q] Hq; cbn; [congruence|]. apply IH2. lia.
Qed.

(** ** [a[-n:]] *)

Lemma np_slice_last {A} (a : list A) (n : Z) :
  0 < n →
  np_slice a (Slice (Some (- n)) None None)
    = Ok (drop (length a - Z.to_nat n) a).
Proof.
  intros Hn. unfold np_slice, indices, Py.bind. cbn.
  set (len := Z.of_nat (length a)).
  set (start := adjust len 1 (- n)).
  assert (Hstart : start = Z.of_nat (length a - Z.to_nat n)).
  { subst start. unfold adjust.
    destruct (Z.ltb_spec (- n) 0); [|lia].
    change (1 <? 0) with false. cbv iota.
    destruct (Z.ltb_spec (- n + len) 0); subst len; lia. }
  rewrite Hstart. f_equal.
  assert (Hcount : count_of (Z.of_nat (length a - Z.to_nat n)) len 1
                   = (length a - (length a - Z.to_nat n))%nat).
  { unfold count_of. subst len.
    destruct (Z.leb_spec (Z.of_nat (length a))
                (Z.of_nat (length a - Z.to_nat n))) as [Hle|Hlt]; [lia|].
    rewrite Z.div_1_r. lia. }
  rewrite Hcount.
  assert (Hpos : ∀ (i c : nat), positions (Z.of_nat i) 1 c = seq i c).
  { intros i c. apply list_eq. intros j. rewrite positions_lookup.
    case_decide.
    - rewrite lookup_seq_lt by done. f_equal. lia.
    - rewrite lookup_seq_ge; [done | lia]. }
  change (pick a (positions (Z.of_nat (length a - Z.to_nat n)) 1
                    (length a - (length a - Z.to_nat n)))
          = drop (length a - Z.to_nat n) a).
  rewrite Hpos. apply pick_seq_drop. lia.
Qed.

(** ** [np.argsort] *)

Lemma is_argsort_in_range l order :
  is_argsort l order → Forall (λ i, (i < length l)%nat) order.
Proof.
  intros [Hperm _]. rewrite Hperm. apply Forall_forall.
  intros i Hi%elem_of_seq. lia.
Qed.

Lemma is_argsort_permutation l order :
  is_argsort l order → pick l order ≡ₚ l.
Proof.
  intros [Hperm _]. unfold pick. rewrite Hperm.
  fold (pick l (seq 0 (length l))). by rewrite pick_seq_drop.
Qed.

(** The sorted array has the distinct values of the stored one. *)
Lemma unique_of_sorted l order :
  is_argsort l order →
  np_unique_index (pick l order) =
    ((np_unique_index l).1, (λ v, index_of v (pick l order)) <$> (np_unique_index l).1).
Proof.
  intros Hsort. unfold np_unique_index. cbn.
  assert (merge_sort Z.le (pick l order) = merge_sort Z.le l) as ->; [|done].
  apply (Sorted_unique Z.le).
  - apply Sorted_merge_sort; apply _.
  - apply Sorted_merge_sort; apply _.
  - rewrite !merge_sort_Permutation. by apply is_argsort_permutation.
Qed.

(** ** The selection *)

Lemma pick_first_occurrences log_prob order vs :
  is_argsort log_prob order →
  (∀ v, v ∈ vs → v ∈ log_prob) →
  Forall2 (first_of_value log_prob order)
    (pick order ((λ v, index_of v (pick log_prob order)) <$> vs)) vs.
Proof.
  intros Hsort. pose proof (is_argsort_in_range _ _ Hsort) as Hrange.
  pose proof (is_argsort_permutation _ _ Hsort) as Hperm.
  induction vs as [|v vs IH]; intros Hvs; [constructor|].
  assert (Hv : v ∈ pick log_prob order).
  { rewrite Hperm. apply Hvs, list_elem_of_here. }
  destruct (index_of_first v _ Hv) as [Hat Hfirst].
  set (p := index_of v (pick log_prob order)) in *.
  rewrite pick_lookup in Hat by done.
  destruct (order !! p) as [i|] eqn:Hp; [|done]. cbn in Hat.
  unfold pick at 1. cbn. fold p. rewrite Hp. cbn. constructor.
  - split; [done|]. exists p. split; [done|]. split; [|done].
    rewrite pick_lookup by done. by rewrite Hp.
  - apply IH. intros w Hw. by apply Hvs, list_elem_of_further.
Qed.

(** C8 (amended).  With [n] the product of the temperature and walker
    counts, positive, and [u] the number of distinct stored
    log-probabilities, the start indices are [min n u] in number; their
    values are the [min n u] largest distinct values, in increasing
    order; and each index is, among the samples of its value, the one
    that comes first in the sorted order. *)
Theorem select_start_inds_top_distinct
    (argsort : list Z → list nat) (log_prob : list Z) (ntemps nwalkers : Z) :
  is_argsort log_prob (argsort log_prob) →
  0 < ntemps * nwalkers →
  let uni := (np_unique_index log_prob).1 in
  let n := (Z.to_nat (ntemps * nwalkers) `min` length uni)%nat in
  StronglySorted Z.lt uni ∧
  (∀ v, v ∈ uni ↔ v ∈ log_prob) ∧
  ∃ sel,
    select_start_inds argsort log_prob ntemps nwalkers = Ok sel ∧
    length sel = n ∧
    Forall2 (first_of_value log_prob (argsort log_prob))
      sel (drop (length uni - n) uni).
Proof.
  intros Hsort Hpos uni n.
  assert (Hmem : ∀ v, v ∈ uni ↔ v ∈ log_prob).
  { intros v. subst uni. unfold np_unique_index. cbn.
    by rewrite elem_of_uniq_sorted, merge_sort_Permutation. }
  split; [|split; [done|]].
  { subst uni. unfold np_unique_index. cbn.
    apply uniq_sorted_increasing, Sorted_merge_sort; apply _. }
  unfold select_start_inds.
  rewrite (unique_of_sorted _ _ Hsort). fold uni.
  rewrite np_slice_last by done. cbn.
  change (uniq_sorted (merge_sort Z.le log_prob)) with uni.
  rewrite length_fmap, <- fmap_drop.
  replace (length uni - Z.to_nat (ntemps * nwalkers))%nat
    with (length uni - n)%nat by lia.
  eexists. split; [done|].
  assert (HF : Forall2 (first_of_value log_prob (argsort log_prob))
            (pick (argsort log_prob)
               ((λ v, index_of v (pick log_prob (argsort log_prob)))
                  <$> drop (length uni - n) uni))
            (drop (length uni - n) uni)).
  { apply pick_first_occurrences; [done|].
    intros v Hv. apply Hmem. by eapply subseteq_drop. }
  split; [|exact HF].
  transitivity (length (drop (length uni - n) uni)).
  - exact (Forall2_length _ _ _ HF).
  - rewrite length_drop. lia.
Qed.

(** Six samples with four distinct values, one temperature, two walkers:
    the samples of values 3 and 5. *)
Lemma select_start_inds_top_distinct_witness :
  ∃ sel,
    select_start_inds merge_argsort [3; 1; 2; 1; 5; 3] 1 2 = Ok sel ∧
    length sel = 2%nat ∧
    Forall2 (first_of_value [3; 1; 2; 1; 5; 3] (merge_argsort [3; 1; 2; 1; 5; 3]))
      sel [3; 5].
Proof.
  destruct (select_start_inds_top_distinct merge_argsort [3; 1; 2; 1; 5; 3] 1 2)
    as (_ & _ & H).
  - split; apply (bool_decide_unpack _); vm_compute; reflexivity.
  - lia.
  - exact H.
Defined.

(** C8, as stated, fails: with three stored samples of log-probabilities
    1, 1 and 2, two temperatures and two walkers, the selection has two
    start points, not four. *)
Lemma select_start_inds_fewer_than_requested :
  is_argsort [1; 1; 2] (merge_argsort [1; 1; 2]) ∧
  ∃ sel, select_start_inds merge_argsort [1; 1; 2] 2 2 = Ok sel ∧
         length sel = 2%nat ∧ length sel ≠ Z.to_nat (2 * 2).
Proof.
  split.
  - split; apply (bool_decide_unpack _); vm_compute; reflexivity.
  - eexists. split; [vm_compute; reflexivity|]. cbn. split; [done | lia].
Qed.

End StartPoints.

(* ===================================================================== *)
(** * Properties of the residual container                                *)
(* ===================================================================== *)

Section Container.
Import DataResidualArray.

(** ** [_check_inputs] *)

(** [_check_inputs] refuses no argument and exactly two arguments; it
    accepts exactly one, and all three. *)
Lemma _check_inputs_spec dt f_arr df :
  _check_inputs dt f_arr df =
    if bool_decide (supplied dt f_arr df = 0%nat ∨ supplied dt f_arr df = 2%nat)
    then Raise ValueError else Ok ().
Proof. by destruct dt, f_arr, df. Qed.

(** C9.  [_check_inputs] lets a call that supplies all three of [dt],
    [f_arr] and [df] through, and the constructor then succeeds from
    [dt]: with four samples, [dt = 1], [f_arr = [0, 1, 2]] and
    [df = 0.25] it returns a container with [dt = 1] and [df = 1/4],
    although more than one of the three were given. *)
Theorem check_inputs_accepts_all_three :
  (∀ dt f_arr df, _check_inputs (Some dt) (Some f_arr) (Some df) = Ok ()) ∧
  ∃ c, __init__ (Channels [Array [1; 1; 1; 1]%float])
         (Some 1%float) (Some [0; 1; 2]%float) (Some 0.25%float) = Ok c ∧
       _dt c = Some 1%float ∧ _df c = Some 0.25%float ∧
       _f_arr c = [0; 0.25; 0.5]%float.
Proof.
  split; [done|]. eexists. split; [vm_compute; reflexivity|]. done.
Qed.

(** ** Construction from [df] alone *)

Lemma arange_len_nonneg start stop step n :
  arange_len start stop step = Ok n → 0 ≤ n.
Proof.
  unfold arange_len. destruct (float_ceil _); [|done]. intros [= <-]. lia.
Qed.

(** C10 (amended).  For channels of common length [L] and [df] alone,
    when neither [1/df] nor [1/(2*fmax)] divides by zero and the derived
    frequency array [arange(0, (L-1)*df, df)] has [n] entries, [n] being
    [ceil(((L-1)*df)/df)] in binary64 arithmetic: the constructor raises
    the length-mismatch error when [n ≠ L], and returns a container with
    [n] frequencies when [n = L]. *)
Theorem df_only_outcome (cs : list entry) (L n : Z) (df : float) :
  scan_channels None cs = Ok (Some L) →
  let fmax := PrimFloat.mul (float_of_Z (L - 1)) df in
  PrimFloat.eqb df 0%float = false →
  PrimFloat.eqb (PrimFloat.mul 2%float fmax) 0%float = false →
  arange_len 0%float fmax df = Ok n →
  if decide (n = L)
  then ∃ c, __init__ (Channels cs) None None (Some df) = Ok c ∧
            length (_f_arr c) = Z.to_nat L ∧ data_length c = Some L
  else __init__ (Channels cs) None None (Some df) = Raise ValueError.
Proof.
  intros Hscan fmax Hdf Hfmax Hlen. subst fmax.
  pose proof (arange_len_nonneg _ _ _ _ Hlen) as Hn.
  unfold __init__, set_data_res_arr, _store_time_and_frequency_information,
    arange0, py_div.
  cbn. rewrite Hscan. cbn. rewrite Hdf. cbn. rewrite Hfmax. cbn.
  rewrite Hlen. cbn. rewrite length_fmap, length_seq, Z2Nat.id by done.
  case_decide as Hnl.
  - subst n. rewrite bool_decide_eq_false_2 by (intros H; by apply H).
    eexists. split; [done|]. cbn. by rewrite length_fmap, length_seq.
  - rewrite bool_decide_eq_true_2; [done|]. congruence.
Qed.

(** Five samples and [df = 0.1]: four frequencies are derived, the
    constructor raises. *)
Lemma df_only_outcome_witness :
  __init__ (Channels [Array [1; 1; 1; 1; 1]%float]) None None (Some tenth)
    = Raise ValueError.
Proof.
  apply (df_only_outcome [Array [1; 1; 1; 1; 1]%float] 5 4 tenth);
    vm_compute; reflexivity.
Defined.

(** With a single sample per channel [fmax] is 0, and the division that
    gives [dt] is the one that fails. *)
Lemma df_only_single_sample :
  __init__ (Channels [Array [1]%float]) None None (Some tenth)
    = Raise ZeroDivisionError.
Proof. vm_compute. reflexivity. Qed.

(** C10, as stated, fails: with four samples per channel and [df = 0.1]
    the quotient [(3 * 0.1) / 0.1] is 3.0000000000000004, the derived
    frequency array has four entries, and the constructor returns. *)
Lemma df_only_construction_succeeds :
  arange_len 0%float (PrimFloat.mul (float_of_Z (4 - 1)) tenth) tenth = Ok 4 ∧
  ∃ c, __init__ (Channels [Array [1; 1; 1; 1]%float; Array [1; 1; 1; 1]%float])
         None None (Some tenth) = Ok c ∧
       data_length c = Some 4 ∧ length (_f_arr c) = 4%nat.
Proof.
  split; [vm_compute; reflexivity|].
  eexists. split; [vm_compute; reflexivity|]. done.
Qed.

End Container.

(* ===================================================================== *)
(** * Further properties of the checkpoint store                          *)
(* ===================================================================== *)

Section StoreMore.
Import HDFBackend.

(** ** [grow] after [reset] *)

(** The call [grow(n)] on a freshly reset store, unfolded: the base arrays
    get [n] entries, and the outcome is the outcome of the loop over the
    members. *)
Lemma grow_after_reset_run nwalkers ntemps nb edges n b0 b :
  reset nwalkers ntemps (Some nb) (Some edges) b0 = (b, Ok ()) →
  0 ≤ n →
  ∃ g bi,
    h5file b = Some g ∧ g_band_info g = Some bi ∧
    after_reset edges (compression b0) g ∧
    grow n b =
      (let '(ms, r) := resize_each n (bi_members bi) in
       ({| compression := compression b;
           h5file := Some {| g_attrs := g_attrs g;
                             g_base := list.resize (Z.to_nat n) [] [];
                             g_band_info :=
                               Some {| bi_attrs := bi_attrs bi; bi_members := ms |} |} |},
        r)).
Proof.
  intros Hreset Hn.
  destruct (reset_ok_inv _ _ _ _ _ _ Hreset) as (_ & g & Hg & Hafter).
  pose proof Hafter as (Hit & _ & Hbase & bi & Hbi & _ & _).
  exists g, bi. split; [done|]. split; [done|]. split; [done|].
  unfold grow, super_grow, get_band, get_group, put_band, put_group, lift,
    group_of, band_of, attr, mbind, io_bind.
  cbn. rewrite Hg. cbn. rewrite Hbase. cbn.
  change (Z.of_nat 0 + n) with n.
  assert ((n <? 0) = false) as -> by lia. cbn.
  rewrite Hit, Hbi. cbn. rewrite Z.add_0_l.
  by destruct (resize_each n (bi_members bi)) as [ms [[]|e]].
Qed.

(** Resizing a dataset that is unlimited along axis 0. *)
Lemma resize_unlimited n rows inner :
  0 ≤ n →
  resize n (Dataset rows inner None true)
    = Ok (Dataset (list.resize (Z.to_nat n) (zero_row inner) rows) inner None true).
Proof.
  intros Hn. unfold resize. cbn. by assert ((n <? 0) = false) as -> by lia.
Qed.

(** The loop of [grow] over the members that [reset] creates. *)
Lemma resize_each_after_reset n edges c g bi :
  0 ≤ n →
  after_reset edges c g → g_band_info g = Some bi →
  match resize n (of_data edges c) with
  | Raise e => resize_each n (bi_members bi) = (bi_members bi, Raise e)
  | Ok d =>
      ∃ ms, resize_each n (bi_members bi) = (("band_edges"%string, d) :: ms, Ok ()) ∧
            Forall (λ kd, ds_len kd.2 = Z.to_nat n) ms
  end.
Proof.
  intros Hn (_ & _ & _ & bi' & Hbi' & _ & (i3 & i2 & iw & Hms)) Hbi.
  rewrite Hbi in Hbi'. injection Hbi' as <-. rewrite Hms.
  cbn [resize_each].
  destruct (resize n (of_data edges c)) as [d|e]; [|done].
  rewrite !resize_unlimited by done.
  eexists. split; [done|].
  repeat constructor; cbn; unfold ds_len; cbn; by rewrite length_resize.
Qed.

(** After a successful [reset], [grow(n)] with [n ≥ 0] returns exactly when
    the store has a compression filter and [n] is at most the number of
    band edges. *)
Theorem grow_returns_iff nwalkers ntemps nb edges n b0 b :
  reset nwalkers ntemps (Some nb) (Some edges) b0 = (b, Ok ()) →
  0 ≤ n →
  (grow n b).2 = Ok () ↔
    compression b0 = true ∧ n ≤ Z.of_nat (length edges).
Proof.
  intros Hreset Hn.
  destruct (grow_after_reset_run _ _ _ _ n _ _ Hreset Hn)
    as (g & bi & Hg & Hbi & Hafter & ->).
  pose proof (resize_each_after_reset n _ _ _ _ Hn Hafter Hbi) as Hloop.
  unfold resize, of_data in Hloop. cbn in Hloop.
  destruct (compression b0); cbn in Hloop.
  - assert ((n <? 0) = false) as Hn' by lia. rewrite Hn' in Hloop.
    destruct (Z.ltb_spec (Z.of_nat (length edges)) n) as [Hlt | Hle].
    + rewrite Hloop. cbn. split; [done | lia].
    + destruct Hloop as (ms & -> & _). cbn. split; [done | done].
  - rewrite Hloop. cbn. split; [done | by intros [? _]].
Qed.

(** On the running example, with a compression filter and four edges:
    [grow(2)] returns. *)
Lemma grow_returns_iff_witness :
  (grow 2 Example.packed).2 = Ok () ↔
    compression (fresh true) = true ∧ 2 ≤ Z.of_nat (length Example.edges).
Proof.
  apply (grow_returns_iff 4 2 3 Example.edges 2 (fresh true) Example.packed).
  - reflexivity.
  - lia.
Defined.

(** When [grow(n)] returns after a [reset], the [band_edges] dataset has
    been cut to the first [n] edges. *)
Theorem grow_cuts_band_edges nwalkers ntemps nb edges n b0 b b' :
  reset nwalkers ntemps (Some nb) (Some edges) b0 = (b, Ok ()) →
  0 ≤ n →
  grow n b = (b', Ok ()) →
  ∃ d, lookup_member "band_edges" (band_members b') = Some d ∧
       ds_rows d = (λ v, [v]) <$> take (Z.to_nat n) edges.
Proof.
  intros Hreset Hn Hgrow.
  destruct (grow_after_reset_run _ _ _ _ n _ _ Hreset Hn)
    as (g & bi & Hg & Hbi & Hafter & Heq).
  pose proof (resize_each_after_reset n _ _ _ _ Hn Hafter Hbi) as Hloop.
  unfold resize, of_data in Hloop. cbn in Hloop.
  destruct (compression b0); cbn in Hloop;
    [|by rewrite Heq, Hloop in Hgrow].
  assert ((n <? 0) = false) as Hn' by lia. rewrite Hn' in Hloop.
  destruct (Z.ltb_spec (Z.of_nat (length edges)) n) as [Hlt | Hle];
    [by rewrite Heq, Hloop in Hgrow|].
  destruct Hloop as (ms & Hrs & _).
  rewrite Heq, Hrs in Hgrow. injection Hgrow as <-.
  unfold band_members. cbn. eexists. split; [done|]. cbn.
  rewrite resize_le by (rewrite length_fmap; lia).
  by rewrite fmap_take.
Qed.

(** On the running example: of the edges 0, 1, 2, 3 the first two are
    left. *)
Lemma grow_cuts_band_edges_witness :
  ∃ d, lookup_member "band_edges" (band_members Example.grown) = Some d ∧
       ds_rows d = (λ v, [v]) <$> take (Z.to_nat 2) Example.edges.
Proof.
  apply (grow_cuts_band_edges 4 2 3 Example.edges 2 (fresh true) Example.packed).
  - reflexivity.
  - lia.
  - reflexivity.
Defined.

(** When [grow(n)] raises after a [reset], the base arrays have been
    extended to [n] entries all the same, and no member of the diagnostics
    group has been touched. *)
Theorem grow_failure_after_reset nwalkers ntemps nb edges n b0 b b' e :
  reset nwalkers ntemps (Some nb) (Some edges) b0 = (b, Ok ()) →
  0 ≤ n →
  grow n b = (b', Raise e) →
  base_len b' = Z.to_nat n ∧ band_members b' = band_members b ∧
  iteration b' = Ok 0.
Proof.
  intros Hreset Hn Hgrow.
  destruct (grow_after_reset_run _ _ _ _ n _ _ Hreset Hn)
    as (g & bi & Hg & Hbi & Hafter & Heq).
  pose proof (resize_each_after_reset n _ _ _ _ Hn Hafter Hbi) as Hloop.
  destruct Hafter as (Hit & _).
  destruct (resize n (of_data edges (compression b0))) as [d|e'].
  - destruct Hloop as (ms & Hrs & _). rewrite Heq, Hrs in Hgrow. done.
  - rewrite Heq, Hloop in Hgrow. injection Hgrow as <- <-.
    unfold base_len, band_members, iteration, group_of, attr. cbn.
    rewrite Hg, Hbi, Hit. by rewrite length_resize.
Qed.

(** On the running example without compression: [grow(5)] raises. *)
Lemma grow_failure_after_reset_witness :
  base_len Example2.half_grown = Z.to_nat 5 ∧
  band_members Example2.half_grown = band_members Example.plain ∧
  iteration Example2.half_grown = Ok 0.
Proof.
  apply (grow_failure_after_reset 4 2 3 Example.edges 5 (fresh false)
           Example.plain Example2.half_grown TypeError).
  - reflexivity.
  - lia.
  - reflexivity.
Defined.

End StoreMore.

Section StoreMore2.
Import HDFBackend.

(** ** What [grow] keeps *)

Lemma lookup_member_resize_each n ms ms' r name d :
  resize_each n ms = (ms', r) →
  lookup_member name ms = Some d →
  ∃ d', lookup_member name ms' = Some d' ∧
        ∀ j : nat, (j < ds_len d)%nat → (j < ds_len d')%nat →
                   ds_rows d' !! j = ds_rows d !! j.
Proof.
  revert ms' r. induction ms as [|[k d0] ms IH]; intros ms' r; cbn; [done|].
  destruct (resize n d0) as [d1|e] eqn:Hd1.
  - destruct (resize_each n ms) as [ms1 r1] eqn:Hrec.
    intros [= <- <-]. cbn.
    destruct (String.eqb name k).
    + intros [= ->]. exists d1. split; [done|].
      intros j Hj Hj'. unfold resize in Hd1.
      repeat case_match; try done; injection Hd1 as <-; cbn in *;
        unfold ds_len in *; cbn in *;
        rewrite length_resize in Hj'; by apply lookup_resize.
    + intros Hd. by eapply IH.
  - intros [= <- <-]. cbn. destruct (String.eqb name k).
    + intros [= ->]. by exists d.
    + intros Hd. by exists d.
Qed.

Lemma grow_keeps (n : Z) (b : backend) :
  iteration (grow n b).1 = iteration b ∧
  ∀ name d,
    lookup_member name (band_members b) = Some d →
    ∃ d', lookup_member name (band_members (grow n b).1) = Some d' ∧
          ∀ j : nat, (j < ds_len d)%nat → (j < ds_len d')%nat →
                     ds_rows d' !! j = ds_rows d !! j.
Proof.
  assert (Hsame : ∀ b', h5file b' = h5file b →
            iteration b' = iteration b ∧
            ∀ name d, lookup_member name (band_members b) = Some d →
              ∃ d', lookup_member name (band_members b') = Some d' ∧
                ∀ j : nat, (j < ds_len d)%nat → (j < ds_len d')%nat →
                           ds_rows d' !! j = ds_rows d !! j).
  { intros b' Hb'. unfold iteration, group_of, band_members. rewrite Hb'.
    split; [done|]. intros name d Hd. by exists d. }
  unfold grow, super_grow, get_band, get_group, put_band, put_group, lift,
    mbind, io_bind.
  cbn.
  destruct (group_of b) as [g|] eqn:Hgo; cbn; [|by apply Hsame].
  assert (Hg : h5file b = Some g).
  { unfold group_of in Hgo. by destruct (h5file b) as [g'|]; simplify_eq. }
  destruct (Z.of_nat (length (g_base g)) + n <? 0); cbn; [by apply Hsame|].
  destruct (attr "iteration" (g_attrs g)) as [it|] eqn:Hit; cbn.
  2:{ unfold iteration, group_of, band_members. cbn. rewrite Hg. cbn.
      split; [done|]. intros name d Hd. by exists d. }
  destruct (band_of _) as [bi|] eqn:Hbi; cbn.
  2:{ unfold iteration, group_of, band_members. cbn. rewrite Hg. cbn.
      split; [done|]. intros name d Hd. by exists d. }
  assert (Hbi' : g_band_info g = Some bi).
  { unfold band_of in Hbi. cbn in Hbi. by destruct (g_band_info g); simplify_eq. }
  destruct (resize_each (it + n) (bi_members bi)) as [ms r] eqn:Hrs. cbn.
  assert (Hgoal :
    iteration {| compression := compression b;
                 h5file := Some {| g_attrs := g_attrs g;
                                   g_base := list.resize
                                     (Z.to_nat (Z.of_nat (length (g_base g)) + n)) []
                                     (g_base g);
                                   g_band_info := Some {| bi_attrs := bi_attrs bi;
                                                          bi_members := ms |} |} |}
      = iteration b ∧
    ∀ name d, lookup_member name (band_members b) = Some d →
      ∃ d', lookup_member name ms = Some d' ∧
        ∀ j : nat, (j < ds_len d)%nat → (j < ds_len d')%nat →
                   ds_rows d' !! j = ds_rows d !! j).
  { unfold iteration, group_of, band_members. cbn. rewrite Hg, Hbi'. cbn.
    split; [done|]. intros name d Hd. by eapply lookup_member_resize_each. }
  by destruct r.
Qed.

(** Whatever its outcome, [grow] leaves the iteration counter alone, and
    in every array of the diagnostics group the rows that exist before and
    after the call are the same rows. *)
Theorem grow_keeps_committed (n : Z) (b : backend) :
  iteration (grow n b).1 = iteration b ∧
  ∀ name d,
    lookup_member name (band_members b) = Some d →
    ∃ d', lookup_member name (band_members (grow n b).1) = Some d' ∧
          ∀ j : nat, (j < ds_len d)%nat → (j < ds_len d')%nat →
                     ds_rows d' !! j = ds_rows d !! j.
Proof. exact (grow_keeps n b). Qed.

(** ** Reads on a store without committed iterations *)

Lemma get_value_nothing_committed name thin discard slice_vals b g it :
  h5file b = Some g → g_attrs g !! "iteration" = Some it → it ≤ 0 →
  get_value name thin discard slice_vals b = Raise AttributeError.
Proof.
  intros Hg Hit Hle. assert ((it <=? 0) = true) as Hle' by lia.
  unfold get_value, super_get_value, initialized, iteration, group_of, attr.
  rewrite Hg. cbn. rewrite Hit. cbn.
  destruct (String.eqb name "band_info"); cbn.
  - destruct slice_vals; cbn; by rewrite Hle'.
  - by rewrite Hle'.
Qed.

(** A [reset] commits nothing, and neither does a [grow] after it: every
    read of the store that [reset] and [grow] leave raises the
    not-initialized error, whether [grow] has returned or raised. *)
Theorem reset_grow_commit_nothing
    nwalkers ntemps nb edges b0 b n name thin discard slice_vals :
  reset nwalkers ntemps (Some nb) (Some edges) b0 = (b, Ok ()) →
  get_value name thin discard slice_vals b = Raise AttributeError ∧
  get_value name thin discard slice_vals (grow n b).1 = Raise AttributeError.
Proof.
  intros Hreset.
  destruct (reset_ok_inv _ _ _ _ _ _ Hreset) as (_ & g & Hg & Hit & _).
  split; [by eapply get_value_nothing_committed|].
  destruct (grow_keeps n b) as [Hiter _].
  unfold iteration, group_of, attr in Hiter. rewrite Hg in Hiter. cbn in Hiter.
  rewrite Hit in Hiter.
  destruct (h5file (grow n b).1) as [g'|] eqn:Hg'; cbn in Hiter; [|done].
  destruct (g_attrs g' !! "iteration") as [it'|] eqn:Hit'; [|done].
  injection Hiter as ->. by eapply get_value_nothing_committed.
Qed.

(** On the running example: after [reset] and [grow(2)]. *)
Lemma reset_grow_commit_nothing_witness :
  get_value "band_info" 1 0 None Example.packed = Raise AttributeError ∧
  get_value "band_info" 1 0 None (grow 2 Example.packed).1 = Raise AttributeError.
Proof.
  apply (reset_grow_commit_nothing 4 2 3 Example.edges (fresh true)).
  reflexivity.
Defined.

(** ** What [save_step] keeps *)

Lemma write_band_info_keeps_edges it entries ms ms' r :
  write_band_info it entries ms = (ms', r) →
  lookup_member "band_edges" ms' = lookup_member "band_edges" ms.
Proof.
  revert ms. induction entries as [|[name [shape data|]] rest IH]; intros ms; cbn.
  - by intros [= <- <-].
  - destruct (String.eqb_spec name "band_edges") as [-> | Hne]; [by apply IH|].
    destruct (lookup_member name ms) as [d0|]; [|by intros [= <- <-]].
    destruct (set_row it shape data d0) as [d1|e]; [|by intros [= <- <-]].
    intros Hrec. rewrite (IH _ Hrec). by apply lookup_update_member_ne.
  - by apply IH.
Qed.

(** [save_step] never writes to the [band_edges] dataset, whatever the
    state holds (an array named [band_edges] included) and whether the
    call returns or raises. *)
Theorem save_step_keeps_band_edges (state : State) (b : backend) :
  lookup_member "band_edges" (band_members (save_step state b).1.1)
    = lookup_member "band_edges" (band_members b).
Proof.
  unfold save_step, super_save_step, get_band, get_group, put_band, put_group,
    lift, num_bands, group_of, band_of, attr, mbind, io_bind, band_members.
  cbn.
  destruct (h5file b) as [g|] eqn:Hg; cbn; [|by rewrite ?Hg].
  destruct (g_attrs g !! "iteration") as [it|] eqn:Hit; cbn; [|by rewrite ?Hg].
  destruct ((it <? 0) || (Z.of_nat (length (g_base g)) <=? it)); cbn;
    [by rewrite ?Hg|].
  rewrite lookup_insert_eq. cbn.
  destruct (g_band_info g) as [bi|] eqn:Hbi; cbn; [|by rewrite ?Hg, ?Hbi].
  destruct (bi_attrs bi !! "num_bands"); cbn; [|by rewrite ?Hg, ?Hbi].
  destruct (write_band_info (it + 1 - 1) (band_info state) (bi_members bi))
    as [ms r] eqn:Hw. cbn.
  apply write_band_info_keeps_edges in Hw.
  destruct r as [[]|e]; cbn; done.
Qed.

(** When the base class has committed the step and the write of the
    diagnostics then raises, the call raises with the iteration counter
    advanced, the base record of the step in place, and the caller's
    counters as they were. *)
Theorem save_step_failure_after_commit
    (state state' : State) (b b1 b' : backend) (e : exn) :
  super_save_step state b = (b1, Ok ()) →
  save_step state b = (b', state', Raise e) →
  state' = state ∧
  ∃ it : Z, iteration b = Ok it ∧ iteration b' = Ok (it + 1) ∧
            (g_base <$> h5file b') = (g_base <$> h5file b1).
Proof.
  unfold iteration, save_step, super_save_step, get_band, get_group, put_band,
    put_group, lift, num_bands, group_of, band_of, attr, mbind, io_bind.
  cbn.
  destruct (h5file b) as [g|] eqn:Hg; cbn; [|done].
  destruct (g_attrs g !! "iteration") as [it|] eqn:Hit; cbn; [|done].
  destruct ((it <? 0) || (Z.of_nat (length (g_base g)) <=? it)); cbn; [done|].
  rewrite lookup_insert_eq. intros [= <-]. cbn.
  destruct (g_band_info g) as [bi|] eqn:Hbi; cbn.
  2:{ intros [= <- <- <-]. split; [done|]. exists it. cbn.
      by rewrite ?Hit, ?lookup_insert_eq. }
  destruct (bi_attrs bi !! "num_bands"); cbn.
  2:{ intros [= <- <- <-]. split; [done|]. exists it. cbn.
      by rewrite ?Hit, ?lookup_insert_eq. }
  destruct (write_band_info (it + 1 - 1) (band_info state) (bi_members bi))
    as [ms r] eqn:Hw. cbn.
  destruct r as [[]|e']; cbn; [done|].
  intros [= <- <- <-]. split; [done|]. exists it. cbn.
  by rewrite ?Hit, ?lookup_insert_eq.
Qed.

(** On the store that a failed [grow(5)] leaves (base arrays of five
    entries, empty diagnostics arrays): the step is committed, the write
    of [band_temps] raises. *)
Lemma save_step_failure_after_commit_witness :
  Example.state = Example.state ∧
  ∃ it : Z, iteration Example2.half_grown = Ok it ∧
            iteration (save_step Example.state Example2.half_grown).1.1 = Ok (it + 1) ∧
            (g_base <$> h5file (save_step Example.state Example2.half_grown).1.1)
              = (g_base <$> h5file (super_save_step Example.state Example2.half_grown).1).
Proof.
  apply (save_step_failure_after_commit Example.state Example.state
           Example2.half_grown
           (super_save_step Example.state Example2.half_grown).1
           (save_step Example.state Example2.half_grown).1.1 IndexError).
  - vm_compute. reflexivity.
  - vm_compute. reflexivity.
Defined.

End StoreMore2.

Section StoreMore3.
Import HDFBackend.

(** ** Reading back what [save_step] has written *)





(** ** A step that is not positive *)

(** On a store with committed iterations and a diagnostics group that is
    not empty, [get_value("band_info", thin, discard)] with [thin ≤ 0]
    raises [ValueError]: a zero step is no slice, and a negative step is
    refused by the dataset. *)
Theorem get_value_rejects_thin
    (b : backend) (g : group) (bi : band_group) (it thin discard : Z) :
  h5file b = Some g →
  g_attrs g !! "iteration" = Some it →
  1 ≤ it →
  g_band_info g = Some bi →
  bi_members bi ≠ [] →
  thin ≤ 0 →
  get_value "band_info" thin discard None b = Raise ValueError.
Proof.
  intros Hg Hit Hpos Hbi Hne Hthin.
  unfold get_value, initialized, iteration, group_of, band_of, attr.
  rewrite Hg. cbn. rewrite Hit. cbn.
  assert ((it <=? 0) = false) as -> by lia. rewrite Hbi. cbn.
  destruct (bi_members bi) as [|[k d] ms]; [done|].
  cbn [read_each]. unfold default_slice, getitem, indices. cbn.
  destruct (Z.eqb_spec thin 0) as [-> | Hnz]; [done|]. cbn.
  by assert ((thin <? 1) = true) as -> by lia.
Qed.

(** On the running example after one step, with [thin = 0]. *)
Lemma get_value_rejects_thin_witness :
  get_value "band_info" 0 0 None Example.saved = Raise ValueError.
Proof.
  apply (get_value_rejects_thin Example.saved (group_at Example.saved)
           (band_at Example.saved) 1 0 0).
  - vm_compute. reflexivity.
  - vm_compute. reflexivity.
  - lia.
  - vm_compute. reflexivity.
  - vm_compute. discriminate.
  - lia.
Defined.

(** ** [reset_kwargs] *)

(** The keywords that [reset_kwargs] returns hold the stored [num_bands]
    but no [band_edges]: a [reset] called with them raises the
    configuration error and changes nothing, on whatever store. *)
Theorem reset_kwargs_without_band_edges
    (b b2 : backend) (kw : list (string * kwval)) (nwalkers : Z) :
  reset_kwargs b = Ok kw →
  (∃ n, num_bands b = Ok n ∧ kw_get "num_bands" kw = Some (KInt n)) ∧
  kw_get "band_edges" kw = None ∧
  reset_with nwalkers kw b2 = (b2, Raise ValueError).
Proof.
  unfold reset_kwargs, reset_with.
  destruct (base_property "nleaves_max" b) as [v1|]; cbn; [|done].
  destruct (ntemps_property b) as [nt|]; cbn; [|done].
  destruct (base_property "branch_names" b) as [v2|]; cbn; [|done].
  destruct (base_property "rj" b) as [v3|]; cbn; [|done].
  destruct (base_property "moves" b) as [v4|]; cbn; [|done].
  destruct (num_bands b) as [nb|]; cbn; [|done].
  intros [= <-]. split; [by exists nb | done].
Qed.

(** On the running example. *)
Lemma reset_kwargs_without_band_edges_witness :
  ∃ kw, reset_kwargs Example.plain = Ok kw ∧
        kw_get "num_bands" kw = Some (KInt 4) ∧
        reset_with 4 kw (fresh false) = (fresh false, Raise ValueError).
Proof.
  eexists. split; [vm_compute; reflexivity|].
  destruct (reset_kwargs_without_band_edges Example.plain (fresh false)
              _ 4 eq_refl) as ((n & Hn & Hnb) & _ & Hreset).
  split; [|exact Hreset].
  vm_compute in Hn. injection Hn as <-. exact Hnb.
Defined.

End StoreMore3.

Section StoreMore4.
Import HDFBackend.

(** ** When [save_step] returns *)

Lemma set_row_ok it shape data d :
  0 ≤ it → it < Z.of_nat (ds_len d) → shape = ds_inner d →
  ∃ d', set_row it shape data d = Ok d' ∧
        ds_inner d' = ds_inner d ∧ ds_len d' = ds_len d.
Proof.
  intros Hit Hlt ->. unfold set_row.
  destruct (Z.ltb_spec it 0); [lia|].
  destruct (Z.ltb_spec it 0); [lia|]. cbn.
  destruct (Z.leb_spec (Z.of_nat (ds_len d)) it); [lia|].
  rewrite bool_decide_eq_true_2 by done. cbn.
  eexists. split; [done|]. split; [done|].
  unfold ds_len. cbn. by rewrite length_insert.
Qed.

Lemma write_band_info_ok it state_entries ms :
  0 ≤ it →
  (∀ name shape data,
      (name, NdArray shape data) ∈ state_entries →
      name ≠ "band_edges"%string →
      ∃ d, lookup_member name ms = Some d ∧ shape = ds_inner d ∧
           it < Z.of_nat (ds_len d)) →
  ∃ ms', write_band_info it state_entries ms = (ms', Ok ()).
Proof.
  intros Hit. revert ms.
  induction state_entries as [|[name [shape data|]] rest IH]; intros ms Hfit; cbn.
  - by eexists.
  - destruct (String.eqb_spec name "band_edges") as [-> | Hne].
    + apply IH. intros n s d Hin. apply (Hfit n s d). by apply list_elem_of_further.
    + destruct (Hfit name shape data (list_elem_of_here _ _) Hne)
        as (d & Hd & Hshape & Hlen).
      rewrite Hd.
      destruct (set_row_ok it shape data d Hit Hlen Hshape)
        as (d' & -> & Hinner & Hlen').
      apply IH. intros n s dat Hin Hn.
      destruct (Hfit n s dat (list_elem_of_further _ _ _ Hin) Hn)
        as (d0 & Hd0 & Hs0 & Hl0).
      destruct (decide (name = n)) as [<- | Hnn].
      * exists d'. rewrite (lookup_update_member_eq _ _ _ _ Hd).
        rewrite Hd in Hd0. injection Hd0 as <-.
        split; [done|]. split; [congruence | lia].
      * exists d0. by rewrite lookup_update_member_ne.
  - apply IH. intros n s d Hin. apply (Hfit n s d). by apply list_elem_of_further.
Qed.

(** [save_step] returns whenever the slot of the step exists: the store
    is initialised with its diagnostics group, the base arrays have an
    entry at the iteration counter, and every array of the state has a
    dataset of its name and shape with a row there. *)
Theorem save_step_returns
    (state : State) (b : backend) (g : group) (bi : band_group) (it : Z) :
  h5file b = Some g →
  g_attrs g !! "iteration" = Some it →
  0 ≤ it < Z.of_nat (length (g_base g)) →
  g_band_info g = Some bi →
  is_Some (bi_attrs bi !! "num_bands") →
  fits it state (bi_members bi) →
  ∃ b' state', save_step state b = (b', state', Ok ()) ∧
               iteration b' = Ok (it + 1).
Proof.
  intros Hg Hit Hrange Hbi [nb Hnb] Hfit.
  destruct (write_band_info_ok it (band_info state) (bi_members bi)
              ltac:(lia) Hfit) as (ms & Hw).
  unfold iteration, save_step, super_save_step, get_band, get_group, put_band,
    put_group, lift, num_bands, group_of, band_of, attr, mbind, io_bind.
  cbn. rewrite Hg. cbn. rewrite Hit. cbn.
  destruct (Z.ltb_spec it 0); [lia|].
  destruct (Z.leb_spec (Z.of_nat (length (g_base g))) it); [lia|]. cbn.
  rewrite lookup_insert_eq. cbn. rewrite Hbi. cbn. rewrite Hnb. cbn.
  replace (it + 1 - 1) with it by lia. rewrite Hw. cbn.
  eexists _, _. split; [done|]. cbn. by rewrite lookup_insert_eq.
Qed.

(** On the running example: the first step after [grow(2)]. *)
Lemma save_step_returns_witness :
  ∃ b' state', save_step Example.state Example.grown = (b', state', Ok ()) ∧
               iteration b' = Ok (0 + 1).
Proof.
  apply (save_step_returns Example.state Example.grown
           (group_at Example.grown) (band_at Example.grown) 0).
  - vm_compute. reflexivity.
  - vm_compute. reflexivity.
  - vm_compute. split; [discriminate | reflexivity].
  - vm_compute. reflexivity.
  - exists 4. vm_compute. reflexivity.
  - intros name shape data Hin Hne.
    repeat (apply elem_of_cons in Hin as [Hin | Hin]);
      try (by apply elem_of_nil in Hin); simplify_eq.
    + eexists. split; [vm_compute; reflexivity|]. split; [reflexivity|].
      vm_compute. reflexivity.
    + eexists. split; [vm_compute; reflexivity|]. split; [reflexivity|].
      vm_compute. reflexivity.
    + eexists. split; [vm_compute; reflexivity|]. split; [reflexivity|].
      vm_compute. reflexivity.
Defined.

(** ** Steps in a row *)





End StoreMore4.

(* ===================================================================== *)
(** * Further properties of the start-point selection                     *)
(* ===================================================================== *)

Section StartPointsMore.
Import Pipeline.

(** ** The best sample *)

(** The selection, as [pick_first_occurrences] describes it. *)
Lemma select_start_inds_run
    (argsort : list Z → list nat) (log_prob : list Z) (ntemps nwalkers : Z) :
  is_argsort log_prob (argsort log_prob) →
  0 < ntemps * nwalkers →
  let uni := (np_unique_index log_prob).1 in
  ∃ sel,
    select_start_inds argsort log_prob ntemps nwalkers = Ok sel ∧
    Forall2 (first_of_value log_prob (argsort log_prob))
      sel (drop (length uni - Z.to_nat (ntemps * nwalkers)) uni).
Proof.
  intros Hsort Hpos uni.
  unfold select_start_inds.
  rewrite (unique_of_sorted _ _ Hsort). fold uni.
  rewrite np_slice_last by done. cbn.
  change (uniq_sorted (merge_sort Z.le log_prob)) with uni.
  rewrite length_fmap, <- fmap_drop.
  eexists. split; [done|].
  apply pick_first_occurrences; [done|].
  intros v Hv%subseteq_drop. subst uni. unfold np_unique_index in Hv. cbn in Hv.
  by rewrite elem_of_uniq_sorted, merge_sort_Permutation in Hv.
Qed.

Lemma increasing_last_is_max (l : list Z) (v : Z) :
  StronglySorted Z.lt l → last l = Some v → ∀ w, w ∈ l → w ≤ v.
Proof.
  intros Hs (l' & ->)%last_Some w [Hw | ->%list_elem_of_singleton]%elem_of_app;
    [|lia].
  apply Z.lt_le_incl.
  eapply (StronglySorted_app_1_elem_of Z.lt); [done | done |].
  apply list_elem_of_here.
Qed.

(** With at least one stored sample and a positive number of walkers, the
    selection is not empty and its last index, the one that
    [start_state[-1]] and the template of the relative-binning stages are
    taken from, holds the largest stored log-probability. *)
Theorem select_start_inds_last_is_best
    (argsort : list Z → list nat) (log_prob : list Z) (ntemps nwalkers : Z) :
  is_argsort log_prob (argsort log_prob) →
  0 < ntemps * nwalkers →
  log_prob ≠ [] →
  ∃ sel i v,
    select_start_inds argsort log_prob ntemps nwalkers = Ok sel ∧
    last sel = Some i ∧
    log_prob !! i = Some v ∧
    ∀ w, w ∈ log_prob → w ≤ v.
Proof.
  intros Hsort Hpos Hne.
  destruct (select_start_inds_run argsort log_prob ntemps nwalkers Hsort Hpos)
    as (sel & Hsel & HF).
  set (uni := (np_unique_index log_prob).1) in *.
  assert (Hmem : ∀ w, w ∈ uni ↔ w ∈ log_prob).
  { intros w. subst uni. unfold np_unique_index. cbn.
    by rewrite elem_of_uniq_sorted, merge_sort_Permutation. }
  assert (Hinc : StronglySorted Z.lt uni).
  { subst uni. unfold np_unique_index. cbn.
    apply uniq_sorted_increasing, Sorted_merge_sort; apply _. }
  assert (Huni : (0 < length uni)%nat).
  { destruct log_prob as [|x l]; [done|].
    assert (x ∈ uni) as Hx by (apply Hmem, list_elem_of_here).
    destruct uni; [by apply elem_of_nil in Hx | cbn; lia]. }
  set (k := (length uni - Z.to_nat (ntemps * nwalkers))%nat) in *.
  assert (Hk : (k < length uni)%nat) by (subst k; lia).
  destruct (lookup_lt_is_Some_2 uni (pred (length uni)) ltac:(lia)) as [v Hv].
  assert (Hlastu : last uni = Some v) by by rewrite last_lookup.
  assert (Hdrop : drop k uni !! (pred (length uni) - k)%nat = Some v).
  { rewrite lookup_drop. rewrite <- Hv. f_equal. lia. }
  destruct (Forall2_lookup_r _ _ _ _ _ HF Hdrop) as (i & Hi & [Hval _]).
  exists sel, i, v. split; [done|]. split; [|split; [done|]].
  - rewrite last_lookup, <- Hi. f_equal.
    rewrite (Forall2_length _ _ _ HF), length_drop. lia.
  - intros w Hw%Hmem. by eapply increasing_last_is_max.
Qed.

(** Six samples, one temperature, two walkers: the last index chosen is
    that of the value 5. *)
Lemma select_start_inds_last_is_best_witness :
  ∃ sel i v,
    select_start_inds merge_argsort [3; 1; 2; 1; 5; 3] 1 2 = Ok sel ∧
    last sel = Some i ∧
    [3; 1; 2; 1; 5; 3] !! i = Some v ∧
    ∀ w, w ∈ [3; 1; 2; 1; 5; 3] → w ≤ v.
Proof.
  apply (select_start_inds_last_is_best merge_argsort [3; 1; 2; 1; 5; 3] 1 2).
  - split; apply (bool_decide_unpack _); vm_compute; reflexivity.
  - lia.
  - discriminate.
Defined.

(** ** The template *)

(** The template of the relative-binning stages has 13 entries; read at
    the eleven indices [test_inds] it gives back the parameters of the
    last start point, and its entries 6 and 12 are zero. *)
Theorem relbin_template_round_trip
    (start_state : list (list float)) (row : list float) :
  last start_state = Some row →
  length row = 11%nat →
  ∃ template,
    relbin_template start_state = Ok template ∧
    length template = 13%nat ∧
    pick template test_inds = row ∧
    template !! 6%nat = Some 0%float ∧
    template !! 12%nat = Some 0%float.
Proof.
  intros Hlast Hlen. unfold relbin_template. rewrite Hlast. cbn.
  do 12 (destruct row as [|? row]; try done).
  eexists. split; [done|]. done.
Qed.

(** One start point with the parameters 1 to 11. *)
Lemma relbin_template_round_trip_witness :
  ∃ template,
    relbin_template [[1; 2; 3; 4; 5; 6; 7; 8; 9; 10; 11]%float] = Ok template ∧
    length template = 13%nat ∧
    pick template test_inds = [1; 2; 3; 4; 5; 6; 7; 8; 9; 10; 11]%float ∧
    template !! 6%nat = Some 0%float ∧
    template !! 12%nat = Some 0%float.
Proof.
  apply (relbin_template_round_trip
           [[1; 2; 3; 4; 5; 6; 7; 8; 9; 10; 11]%float]); reflexivity.
Defined.

Lemma pick_of_nil {A} (ps : list nat) : pick ([] : list A) ps = [].
Proof. unfold pick. by induction ps. Qed.

Lemma select_start_inds_nil (argsort : list Z → list nat) (ntemps nwalkers : Z) :
  argsort [] = [] → select_start_inds argsort [] ntemps nwalkers = Ok [].
Proof.
  intros Hnil. unfold select_start_inds. rewrite Hnil.
  rewrite pick_of_nil.
  change (np_unique_index []) with (([] : list Z), ([] : list nat)). cbv beta iota.
  unfold np_slice, indices.
  change (default 1 (sl_step _)) with 1. change (1 =? 0) with false.
  cbv beta iota. unfold Py.bind, mbind, result_bind, Py.bind.
  by rewrite !pick_of_nil.
Qed.

(** When the flattened log-probability array is empty, nothing is
    selected, and the template, which is taken from the last start point,
    cannot be built: [start_state[-1]] raises [IndexError]. *)
Theorem empty_store_gives_no_template
    (argsort : list Z → list nat) (ntemps nwalkers : Z)
    (chain : list (list float)) :
  is_argsort [] (argsort []) →
  select_start_inds argsort [] ntemps nwalkers = Ok [] ∧
  relbin_template (pick chain []) = Raise IndexError.
Proof.
  intros [Hperm _]. cbn in Hperm. apply Permutation_nil_r in Hperm.
  split; [|done].
  by apply select_start_inds_nil.
Qed.

(** With the argsort by merge sort. *)
Lemma empty_store_gives_no_template_witness :
  select_start_inds merge_argsort [] 2 4 = Ok [] ∧
  relbin_template (pick [[1]%float] []) = Raise IndexError.
Proof.
  apply (empty_store_gives_no_template merge_argsort 2 4 [[1]%float]).
  split; apply (bool_decide_unpack _); vm_compute; reflexivity.
Defined.

End StartPointsMore.

(* ===================================================================== *)
(** * Further properties of the residual container                        *)
(* ===================================================================== *)

Section ContainerMore.
Import DataResidualArray.

(** ** The [data_res_arr] setter *)

Lemma scan_channels_Some (m : Z) (cs : list entry) (r : option Z) :
  scan_channels (Some m) cs = Ok r ↔ r = Some m ∧ Forall (channel_of m) cs.
Proof.
  induction cs as [|[samples|] cs IH]; cbn.
  - split; [by intros [= <-] | by intros [-> _]].
  - destruct (Z.eqb_spec (Z.of_nat (length samples)) m) as [Hm | Hm].
    + rewrite IH. split; intros [-> Hall]; (split; [done|]).
      * constructor; [by exists samples | done].
      * by apply Forall_cons in Hall as [_ Hall].
    + split; [done|]. intros [_ Hall]. apply Forall_cons in Hall as [Hc _].
      destruct Hc as (s & [= <-] & Hlen). done.
  - split; [done|]. intros [_ Hall]. apply Forall_cons in Hall as [Hc _].
    by destruct Hc as (s & ? & _).
Qed.

(** The setter accepts exactly the lists, not empty, of arrays of one
    length, and that length is the [data_length] it stores; the empty list
    is accepted with no [data_length]. *)
Theorem setter_accepts_common_length (cs : list entry) (L : Z) :
  (set_data_res_arr cs = Ok (length cs, Some L)
     ↔ cs ≠ [] ∧ Forall (channel_of L) cs) ∧
  set_data_res_arr [] = Ok (0%nat, None).
Proof.
  split; [|done]. unfold set_data_res_arr.
  destruct cs as [|[samples|] cs]; cbn.
  - split; [done | by intros [? _]].
  - destruct (scan_channels (Some (Z.of_nat (length samples))) cs) as [r|e] eqn:Hscan;
      cbn.
    + apply scan_channels_Some in Hscan as [-> Hall]. split.
      * intros [= <-]. split; [done|]. constructor; [by eexists | done].
      * intros [_ Hall']. apply Forall_cons in Hall' as [(s & [= <-] & <-) _]. done.
    + split; [done|]. intros [_ Hall]. apply Forall_cons in Hall as [(s & [= <-] & <-) Hall].
      assert (scan_channels (Some (Z.of_nat (length samples))) cs
              = Ok (Some (Z.of_nat (length samples)))) as Hok
        by by apply scan_channels_Some.
      congruence.
  - split; [done|]. intros [_ Hall]. apply Forall_cons in Hall as [(s & ? & _) _]. done.
Qed.

(** After arrays of one length, an array of another length stops the
    setter with [AssertionError], and an entry that is no array with
    [ValueError]. *)
Theorem setter_rejects (c0 : list float) (pre post : list entry) (bad : list float) :
  Forall (channel_of (Z.of_nat (length c0))) pre →
  length bad ≠ length c0 →
  set_data_res_arr (Array c0 :: pre ++ Array bad :: post) = Raise AssertionError ∧
  set_data_res_arr (Array c0 :: pre ++ NotArray :: post) = Raise ValueError ∧
  set_data_res_arr (NotArray :: post) = Raise ValueError.
Proof.
  intros Hpre Hbad. unfold set_data_res_arr. cbn.
  assert (Hgo : ∀ rest, scan_channels (Some (Z.of_nat (length c0))) (pre ++ rest)
                        = scan_channels (Some (Z.of_nat (length c0))) rest).
  { intros rest. induction Hpre as [|e pre (s & -> & Hlen) _ IH]; [done|].
    cbn. rewrite Hlen. by rewrite Z.eqb_refl. }
  rewrite !Hgo. cbn.
  destruct (Z.eqb_spec (Z.of_nat (length bad)) (Z.of_nat (length c0))); [lia|].
  done.
Qed.

(** Two samples, then three. *)
Lemma setter_rejects_witness :
  set_data_res_arr (Array [1; 2]%float :: [Array [3; 4]%float]
                      ++ Array [5; 6; 7]%float :: [])
    = Raise AssertionError.
Proof.
  destruct (setter_rejects [1; 2]%float [Array [3; 4]%float] []
              [5; 6; 7]%float) as (H & _).
  - repeat constructor. by eexists.
  - cbn. lia.
  - exact H.
Defined.

(** ** Construction from [dt] alone *)

(** From [dt] alone, with channels of [L ≥ 1] samples, when neither
    [1/(L*dt)] nor [1/(2*dt)] divides by zero, the constructor always
    returns: the data are transformed, [data_length] becomes [L // 2 + 1],
    and that is the number of frequencies of [rfftfreq]. *)
Theorem dt_only_outcome (cs : list entry) (L : Z) (step : float) :
  scan_channels None cs = Ok (Some L) →
  1 ≤ L →
  PrimFloat.eqb (PrimFloat.mul (float_of_Z L) step) 0%float = false →
  PrimFloat.eqb (PrimFloat.mul 2%float step) 0%float = false →
  ∃ c, __init__ (Channels cs) (Some step) None None = Ok c ∧
       data_length c = Some (L / 2 + 1) ∧
       length (f_arr c) = Z.to_nat (L / 2 + 1) ∧
       dt c = Ok step ∧
       nchannels c = length cs.
Proof.
  intros Hscan HL HT H2.
  unfold __init__, set_data_res_arr, _store_time_and_frequency_information,
    rfftfreq, py_div.
  cbn. rewrite Hscan. cbn. rewrite HT. cbn. rewrite H2. cbn.
  assert ((L <=? 0) = false) as -> by lia. cbn.
  rewrite length_fmap, length_seq.
  rewrite Z2Nat.id by (pose proof (Z.div_pos L 2); lia).
  rewrite bool_decide_eq_false_2 by (intros H; by apply H).
  eexists. split; [done|]. cbn. unfold f_arr. cbn.
  by rewrite length_fmap, length_seq.
Qed.

(** Five samples and [dt = 1]: three frequencies. *)
Lemma dt_only_outcome_witness :
  ∃ c, __init__ (Channels [Array [1; 1; 1; 1; 1]%float]) (Some 1%float) None None = Ok c ∧
       data_length c = Some (5 / 2 + 1) ∧
       length (f_arr c) = Z.to_nat (5 / 2 + 1) ∧
       dt c = Ok 1%float ∧
       nchannels c = 1%nat.
Proof.
  apply (dt_only_outcome [Array [1; 1; 1; 1; 1]%float] 5 1%float);
    [vm_compute; reflexivity | lia | vm_compute; reflexivity..].
Defined.

(** ** Construction from [f_arr] alone *)

(** What the branch of [f_arr] alone stores, before the lengths are
    compared: the frequencies as given and the length of the channels. *)
Lemma f_arr_branch_inv (cs : list entry) (nch : nat) (len0 : option Z)
    (f : list float) (c : t) :
  _store_time_and_frequency_information cs nch len0 None (Some f) None = Ok c →
  _f_arr c = f ∧ data_length c = len0 ∧ np_diff f ≠ [] ∧
  Some (Z.of_nat (length f)) = len0 ∧
  (is_Some (_dt c) ↔ is_Some (_Tobs c)) ∧ (is_Some (_dt c) → is_Some (_df c)).
Proof.
  unfold _store_time_and_frequency_information.
  cbn -[np_max np_diff forallb py_div].
  destruct (np_max f) as [fm|]; cbn -[np_max np_diff forallb py_div]; [|done].
  destruct (np_diff f) as [|d0 ds] eqn:Hdiff;
    cbn -[np_max np_diff forallb py_div]; [done|].
  assert (Hfin : ∀ (odt oT odf : option float),
    (is_Some odt ↔ is_Some oT) → (is_Some odt → is_Some odf) →
    (if bool_decide (Some (Z.of_nat (length f)) ≠ len0)
     then Raise ValueError else Ok (Make cs nch len0 odt oT odf fm f)) = Ok c →
    _f_arr c = f ∧ data_length c = len0 ∧ d0 :: ds ≠ [] ∧
    Some (Z.of_nat (length f)) = len0 ∧
    (is_Some (_dt c) ↔ is_Some (_Tobs c)) ∧ (is_Some (_dt c) → is_Some (_df c))).
  { intros odt oT odf Hiff Himp. case_bool_decide as Hne; [done|].
    intros [= <-]. cbn.
    destruct (decide (Some (Z.of_nat (length f)) = len0)); done. }
  destruct (forallb _ _).
  - destruct (match f with [] => false | f0 :: _ => PrimFloat.eqb f0 0 end).
    + destruct (py_div 1 d0) as [T|]; cbn -[np_max np_diff forallb py_div]; [|done].
      apply Hfin; [by split; intros _ | by intros _].
    + apply Hfin; [split; intros []; done | intros []; done].
  - apply Hfin; [split; intros []; done | intros []; done].
Qed.

(** From [f_arr] alone, the constructor raises on a frequency array of
    fewer than two entries, whatever the channels ([ValueError] from the
    maximum of an empty array, [IndexError] from the first difference of a
    single frequency); when it returns, the container holds the
    frequencies as they were given, as many as each channel has samples. *)
Theorem f_arr_only_outcome (cs : list entry) (L : Z) (f : list float) :
  scan_channels None cs = Ok (Some L) →
  __init__ (Channels cs) None (Some []) None = Raise ValueError ∧
  (∀ x, __init__ (Channels cs) None (Some [x]) None = Raise IndexError) ∧
  ∀ c, __init__ (Channels cs) None (Some f) None = Ok c →
       f_arr c = f ∧ Z.of_nat (length f) = L ∧ (2 ≤ length f)%nat ∧
       data_length c = Some L.
Proof.
  intros Hscan.
  split; [|split].
  - unfold __init__, set_data_res_arr. cbn. by rewrite Hscan.
  - intros x. unfold __init__, set_data_res_arr. cbn. by rewrite Hscan.
  - intros c. unfold __init__, set_data_res_arr.
    cbn -[_store_time_and_frequency_information]. rewrite Hscan.
    cbn -[_store_time_and_frequency_information].
    intros (Hf & Hlen & Hdiff & [= HL] & _)%f_arr_branch_inv.
    unfold f_arr. split; [done|]. split; [done|]. split; [|done].
    destruct f as [|x [|y f]]; cbn in *; [done | done | lia].
Qed.

(** Four samples, the frequencies 0, 1, 2, 3. *)
Lemma f_arr_only_outcome_witness :
  ∃ c, __init__ (Channels [Array [1; 1; 1; 1]%float]) None
         (Some [0; 1; 2; 3]%float) None = Ok c ∧
       f_arr c = [0; 1; 2; 3]%float ∧ data_length c = Some 4.
Proof.
  eexists. split; [vm_compute; reflexivity|].
  destruct (f_arr_only_outcome [Array [1; 1; 1; 1]%float] 4 [0; 1; 2; 3]%float)
    as (_ & _ & H); [vm_compute; reflexivity|].
  destruct (H _ eq_refl) as (Hf & _ & _ & Hlen). split; [exact Hf | exact Hlen].
Defined.

(** ** What can be read from a container *)

(** In a container built from channels, [dt] can be read exactly when
    [Tobs] can, and then [df] can be read too. *)
Theorem dt_Tobs_df_availability
    (cs : list entry) (odt : option float) (ofr : option (list float))
    (odf : option float) (c : t) :
  __init__ (Channels cs) odt ofr odf = Ok c →
  (dt c = Raise ValueError ↔ Tobs c = Raise ValueError) ∧
  (df c = Raise ValueError → dt c = Raise ValueError).
Proof.
  assert (Hget : (is_Some (_dt c) ↔ is_Some (_Tobs c)) →
                 (is_Some (_dt c) → is_Some (_df c)) →
    (dt c = Raise ValueError ↔ Tobs c = Raise ValueError) ∧
    (df c = Raise ValueError → dt c = Raise ValueError)).
  { unfold dt, Tobs, df. intros [H1 H2] H3.
    destruct (_dt c) as [a|], (_Tobs c) as [b|], (_df c) as [d|];
      (split; [split|]); intros ?; try done; exfalso;
      first [ by apply (is_Some_None (A:=float)), H1; eauto
            | by apply (is_Some_None (A:=float)), H2; eauto
            | by apply (is_Some_None (A:=float)), H3; eauto ]. }
  unfold __init__.
  destruct (_check_inputs odt ofr odf); cbn -[_store_time_and_frequency_information]; [|done].
  destruct (set_data_res_arr cs) as [[nch len0]|];
    cbn -[_store_time_and_frequency_information]; [|done].
  destruct odt as [x|]; [|destruct odf as [y|]; [|destruct ofr as [f|]]].
  - unfold _store_time_and_frequency_information, mbind, result_bind, Py.bind.
    destruct (the_length len0) as [n|]; [|done].
    destruct (py_div 1 (PrimFloat.mul (float_of_Z n) x)) as [d'|]; [|done].
    destruct (py_div 1 (PrimFloat.mul 2 x)) as [fm|]; [|done].
    destruct (rfftfreq n x) as [fr|]; [|done].
    destruct (n <=? 0); [done|].
    case_bool_decide; [done|]. intros [= <-]. apply Hget; cbn; by eauto.
  - unfold _store_time_and_frequency_information, mbind, result_bind, Py.bind.
    destruct (py_div 1 y) as [T|]; [|done].
    destruct (the_length len0) as [n|]; [|done].
    destruct (py_div 1 _) as [d'|]; [|done].
    destruct (arange0 _ y) as [fr|]; [|done].
    case_bool_decide; [done|]. intros [= <-]. apply Hget; cbn; by eauto.
  - intros (_ & _ & _ & _ & H1 & H2)%f_arr_branch_inv. by apply Hget.
  - done.
Qed.

(** Frequencies that are not evenly spaced: none of the three can be
    read. *)
Lemma dt_Tobs_df_availability_witness :
  ∃ c, __init__ (Channels [Array [1; 1; 1; 1]%float]) None
         (Some [1; 2; 3; 5]%float) None = Ok c ∧
       (dt c = Raise ValueError ↔ Tobs c = Raise ValueError) ∧
       (df c = Raise ValueError → dt c = Raise ValueError).
Proof.
  eexists. split; [vm_compute; reflexivity|].
  apply (dt_Tobs_df_availability [Array [1; 1; 1; 1]%float] None
           (Some [1; 2; 3; 5]%float) None).
  vm_compute. reflexivity.
Defined.

End ContainerMore.

(* ===================================================================== *)
(** * Properties of the run context and of the runner                     *)
(* ===================================================================== *)

Section RunContext.
Import InfoManager.

(** ** The [data] property *)

(** Setting [data] to a list that starts with a list: the counts are those
    of the list and of its first element, whatever the other elements are,
    and no other attribute changes. *)
Lemma set_data_ok (c0 : list pyval) (rest : list pyval) (self : obj) :
  let data := PList (PList c0 :: rest) in
  ∃ self',
    set_data data self = (self', Ok ()) ∧
    InfoManager.data self' = Ok data ∧
    self' !! "nchannels" = Some (PInt (Z.of_nat (S (length rest)))) ∧
    self' !! "data_length" = Some (PInt (Z.of_nat (length c0))) ∧
    ∀ k : string, k ≠ "_data"%string → k ≠ "data_length"%string →
                  k ≠ "nchannels"%string → self' !! k = self !! k.
Proof.
  intros data.
  exists (<["_data" := data]>
            (<["data_length" := PInt (Z.of_nat (length c0))]>
               (<["nchannels" := PInt (Z.of_nat (S (length rest)))]> self))).
  split; [done|]. unfold InfoManager.data.
  split; [by rewrite lookup_insert_eq|].
  split; [by rewrite !lookup_insert_ne, lookup_insert_eq by done|].
  split; [by rewrite lookup_insert_ne, lookup_insert_eq by done|].
  intros k H1 H2 H3. by rewrite !lookup_insert_ne by done.
Qed.

(** [update_info(data)] replaces the data: the getter returns the new
    data, [nchannels] is the number of channels and [data_length] the
    length of the first channel (the other channels are not looked at),
    and every other attribute of the run context is kept. *)
Theorem update_info_replaces_data
    (c0 : list pyval) (rest : list pyval) (self : obj) :
  let data := PList (PList c0 :: rest) in
  ∃ self',
    update_info data self = (self', Ok ()) ∧
    InfoManager.data self' = Ok data ∧
    self' !! "nchannels" = Some (PInt (Z.of_nat (S (length rest)))) ∧
    self' !! "data_length" = Some (PInt (Z.of_nat (length c0))) ∧
    ∀ k : string, k ≠ "_data"%string → k ≠ "data_length"%string →
                  k ≠ "nchannels"%string → self' !! k = self !! k.
Proof. apply set_data_ok. Qed.

(** [update_info] with an empty list of channels raises [IndexError]
    after [nchannels] has been set to 0: the run context is left with the
    old data and the old [data_length], and a channel count of 0. *)
Theorem update_info_empty_data (self : obj) :
  ∃ self',
    update_info (PList []) self = (self', Raise IndexError) ∧
    self' !! "nchannels" = Some (PInt 0) ∧
    InfoManager.data self' = InfoManager.data self ∧
    self' !! "data_length" = self !! "data_length".
Proof.
  exists (<["nchannels" := PInt 0]> self).
  split; [done|]. unfold InfoManager.data.
  split; [by rewrite lookup_insert_eq|].
  by rewrite !lookup_insert_ne by done.
Qed.

(** ** The constructor *)

Lemma set_all_ok (kwargs : list (string * pyval)) (self : obj) :
  "data"%string ∉ kwargs.*1 →
  NoDup kwargs.*1 →
  ∃ self',
    set_all kwargs self = (self', Ok ()) ∧
    (∀ k v, (k, v) ∈ kwargs → self' !! k = Some v) ∧
    (∀ k, k ∉ kwargs.*1 → self' !! k = self !! k).
Proof.
  revert self. induction kwargs as [|[key value] kwargs IH]; intros self Hd Hnd.
  - exists self. split; [done|]. split; [|done]. by intros k v ?%elem_of_nil.
  - cbn in Hd, Hnd. apply not_elem_of_cons in Hd as [Hkey Hd].
    apply NoDup_cons in Hnd as [Hfresh Hnd].
    destruct (IH (<[key := value]> self) Hd Hnd) as (self' & Hset & Hin & Hout).
    exists self'. cbn. unfold setattr.
    destruct (String.eqb_spec key "data") as [-> | _]; [done|].
    split; [done|]. split.
    + intros k v [[= -> ->] | Hkv]%elem_of_cons; [|by apply Hin].
      rewrite Hout by done. by rewrite lookup_insert_eq.
    + intros k [Hk Hk']%not_elem_of_cons.
      rewrite Hout by done. by rewrite lookup_insert_ne.
Qed.

(** The constructor cannot do without data: with the default [data=None]
    it raises [TypeError], with an empty list [IndexError].  With a list
    of channels it returns an object in which every keyword is an
    attribute of that value (a keyword [nchannels] or [data_length]
    overrides the count taken from the data), and the counts taken from
    the data are there unless a keyword has their name. *)
Theorem init_data_and_keywords
    (name dt T fd : pyval) (c0 rest : list pyval)
    (kwargs : list (string * pyval)) :
  "data"%string ∉ kwargs.*1 →
  NoDup kwargs.*1 →
  __init__ name PNone dt T fd kwargs = Raise TypeError ∧
  __init__ name (PList []) dt T fd kwargs = Raise IndexError ∧
  ∃ self,
    __init__ name (PList (PList c0 :: rest)) dt T fd kwargs = Ok self ∧
    (∀ k v, (k, v) ∈ kwargs → self !! k = Some v) ∧
    ("nchannels"%string ∉ kwargs.*1 →
       self !! "nchannels" = Some (PInt (Z.of_nat (S (length rest))))) ∧
    ("data_length"%string ∉ kwargs.*1 →
       self !! "data_length" = Some (PInt (Z.of_nat (length c0)))) ∧
    ("_data"%string ∉ kwargs.*1 →
       InfoManager.data self = Ok (PList (PList c0 :: rest))).
Proof.
  intros Hd Hnd. split; [done|]. split; [done|].
  unfold __init__.
  set (self0 := <["fd" := fd]> (<["T" := T]> (<["dt" := dt]> (<["name" := name]> ∅)))).
  destruct (set_data_ok c0 rest self0) as (self1 & -> & Hdata & Hn & Hm & _).
  destruct (set_all_ok kwargs self1 Hd Hnd) as (self & -> & Hin & Hout).
  exists self. split; [done|]. split; [done|].
  unfold InfoManager.data in *.
  split; [|split]; intros Hk; rewrite (Hout _ Hk); done.
Qed.

(** Two channels, and keywords that give a label and override the channel
    count. *)
Lemma init_data_and_keywords_witness :
  ∃ self,
    __init__ (PStr "run") (PList [PList [PFloat 1; PFloat 2]; PList [PFloat 3]])
      (PFloat 1) (PInt 2) PNone
      [("label"%string, PStr "a"); ("nchannels"%string, PInt 7)] = Ok self ∧
    self !! "nchannels" = Some (PInt 7) ∧
    self !! "data_length" = Some (PInt 2).
Proof.
  destruct (init_data_and_keywords (PStr "run") (PFloat 1) (PInt 2) PNone
              [PFloat 1; PFloat 2] [PList [PFloat 3]]
              [("label"%string, PStr "a"); ("nchannels"%string, PInt 7)])
    as (_ & _ & self & Hself & Hin & _ & Hm & _).
  - apply (bool_decide_unpack _). vm_compute. reflexivity.
  - apply (bool_decide_unpack _). vm_compute. reflexivity.
  - exists self. split; [exact Hself|]. split.
    + apply Hin. apply list_elem_of_further, list_elem_of_here.
    + apply Hm. apply (bool_decide_unpack _). vm_compute. reflexivity.
Defined.

(** ** The hand-off between the stages *)

(** The search stage publishes its store under [fp_search_init], which is
    what the relative-binning search opens; that stage publishes under
    [fp_search], which is what the relative-binning inference opens; the
    inference publishes under [fp_pe].  None of the three overwrites the
    pointer of another or touches the data, and before the
    relative-binning search has published, the inference stage finds
    nothing to open. *)
Theorem stage_handoff (info : obj) (fp1 fp2 fp3 : pyval) :
  info !! "fp_search" = None →
  let i1 := (MBHBase_update_information true fp1 info).1 in
  let i2 := (MBHRelBinSearch_update_information fp2 i1).1 in
  let i3 := (MBHRelBinPE_update_information fp3 i2).1 in
  MBHRelBinSearch_reader_path i1 = Ok fp1 ∧
  MBHRelBinPE_reader_path i1 = Raise AttributeError ∧
  MBHRelBinPE_reader_path i2 = Ok fp2 ∧
  MBHRelBinSearch_reader_path i3 = Ok fp1 ∧
  MBHRelBinPE_reader_path i3 = Ok fp2 ∧
  getattr "fp_pe" i3 = Ok fp3 ∧
  InfoManager.data i3 = InfoManager.data info.
Proof.
  intros Hnone i1 i2 i3. subst i1 i2 i3.
  unfold MBHBase_update_information, MBHRelBinSearch_update_information,
    MBHRelBinPE_update_information, MBHRelBinSearch_reader_path,
    MBHRelBinPE_reader_path, setattr, getattr, InfoManager.data.
  cbn.
  repeat split;
    repeat (rewrite lookup_insert_eq || rewrite lookup_insert_ne by done);
    rewrite ?Hnone; done.
Qed.

(** On an empty run context. *)
Lemma stage_handoff_witness :
  MBHRelBinSearch_reader_path
    (MBHBase_update_information true (PStr "search.h5") ∅).1 = Ok (PStr "search.h5").
Proof.
  destruct (stage_handoff ∅ (PStr "search.h5") (PStr "relbin.h5") (PStr "pe.h5"))
    as (H & _).
  - apply lookup_empty.
  - exact H.
Defined.

End RunContext.

Section Runner.
Import PipelineGuide.
Context {St K : Type}.
Implicit Types (m : module St K) (ms : list (module St K)) (w : world St).

(** The loop over a list that is made of two: the second part starts, with
    its numbers, where the first part has returned, and is not started
    when the first part has raised. *)
Lemma run_from_app i ms1 ms2 progress verbose (kw : K) w :
  run_from i (ms1 ++ ms2) progress verbose kw w =
    match run_from i ms1 progress verbose kw w with
    | (w1, Ok _) => run_from (i + length ms1) ms2 progress verbose kw w1
    | (w1, Raise e) => (w1, Raise e)
    end.
Proof.
  revert i w. induction ms1 as [|m ms1 IH]; intros i w; cbn.
  - by rewrite Nat.add_0_r.
  - destruct (update_module m kw _) as [w1 [[]|e]]; [|done].
    destruct (run_module m progress w1) as [w2 [[]|e]]; [|done].
    rewrite IH. by rewrite Nat.add_succ_r.
Qed.

(** A stage that fails is fatal to the run.  When the modules before [m]
    have run and [update_module] of [m] raises, [run] raises that
    exception in the world that [m] has left: [run_module] of [m] is not
    called, and the modules after [m], whatever they are, are not
    started. *)
Theorem run_stops_at_failure
    ms1 m ms2 progress verbose (kw : K) w w1 w2 (e : exn) :
  run ms1 progress verbose kw w = (w1, Ok ()) →
  update_module m kw
    (if verbose then print (banner "starting" (length ms1) m) w1 else w1)
    = (w2, Raise e) →
  run (ms1 ++ m :: ms2) progress verbose kw w = (w2, Raise e).
Proof.
  unfold run. intros H1 Hm. rewrite run_from_app, H1. cbn. by rewrite Hm.
Qed.

(** The same when it is [run_module] that raises. *)
Theorem run_stops_at_failed_run_module
    ms1 m ms2 progress verbose (kw : K) w w1 w2 w3 (e : exn) :
  run ms1 progress verbose kw w = (w1, Ok ()) →
  update_module m kw
    (if verbose then print (banner "starting" (length ms1) m) w1 else w1)
    = (w2, Ok ()) →
  run_module m progress w2 = (w3, Raise e) →
  run (ms1 ++ m :: ms2) progress verbose kw w = (w3, Raise e).
Proof.
  unfold run. intros H1 Hm Hr. rewrite run_from_app, H1. cbn.
  by rewrite Hm, Hr.
Qed.

Lemma run_from_banners i ms progress verbose (kw : K) w w' :
  Forall silent ms →
  run_from i ms progress verbose kw w = (w', Ok ()) →
  stdout w' = stdout w ++ (if verbose then banners i ms else []).
Proof.
  intros Hsilent. revert i w.
  induction Hsilent as [|m ms [Hup Hrun] _ IH]; intros i w; cbn.
  - intros [= <-]. destruct verbose; by rewrite app_nil_r.
  - set (w0 := if verbose then print (banner "starting" i m) w else w).
    pose proof (Hup kw w0) as Hup'.
    destruct (update_module m kw w0) as [w1 [[]|e]]; [|done].
    pose proof (Hrun progress w1) as Hrun'.
    destruct (run_module m progress w1) as [w2 [[]|e]]; [|done].
    intros Hrest%IH. rewrite Hrest. cbn in Hup', Hrun'.
    subst w0. destruct verbose; cbn; rewrite Hrun', Hup'; cbn.
    + by rewrite <- !app_assoc.
    + done.
Qed.

(** For modules that print nothing themselves, a run that returns has
    printed, when verbose, one "starting module i" and one "finished
    module i" line per module, in the order of the list and numbered from
    0, with the name of the module where it has one; when not verbose, it
    has printed nothing. *)
Theorem run_prints_banners ms progress verbose (kw : K) w w' :
  Forall silent ms →
  run ms progress verbose kw w = (w', Ok ()) →
  stdout w' = stdout w ++ (if verbose then banners 0 ms else []).
Proof. apply run_from_banners. Qed.

End Runner.

(** Two adders and, between them, a module that fails: the run raises
    with the counter at 1, the second adder has not run. *)
Lemma run_stops_at_failure_witness :
  PipelineGuide.run
    ([PipelineGuide.adder 1] ++ PipelineGuide.broken :: [PipelineGuide.adder 5])
    false false () (PipelineGuide.World [] 0%nat)
  = (PipelineGuide.World [] 1%nat, Raise AttributeError).
Proof.
  apply (run_stops_at_failure [PipelineGuide.adder 1] PipelineGuide.broken
           [PipelineGuide.adder 5] false false () _
           (PipelineGuide.World [] 1%nat)); reflexivity.
Defined.

(** An adder whose [run_module] fails after the counter has changed. *)
Lemma run_stops_at_failed_run_module_witness :
  PipelineGuide.run
    ([PipelineGuide.adder 1]
       ++ {| PipelineGuide.name := None;
             PipelineGuide.update_module := λ _ w, (w, Ok ());
             PipelineGuide.run_module := λ _ w, (w, Raise ValueError) |}
       :: [PipelineGuide.adder 5])
    false false () (PipelineGuide.World [] 0%nat)
  = (PipelineGuide.World [] 1%nat, Raise ValueError).
Proof.
  apply (run_stops_at_failed_run_module [PipelineGuide.adder 1] _
           [PipelineGuide.adder 5] false false () _
           (PipelineGuide.World [] 1%nat) (PipelineGuide.World [] 1%nat));
    reflexivity.
Defined.

(** Two adders, verbose. *)
Lemma run_prints_banners_witness :
  PipelineGuide.stdout
    (PipelineGuide.run [PipelineGuide.adder 1; PipelineGuide.adder 5]
       false true () (PipelineGuide.World [] 0%nat)).1
  = [ "starting module 0: add"; "finished module 0: add";
      "starting module 1: add"; "finished module 1: add" ]%string.
Proof.
  apply (run_prints_banners [PipelineGuide.adder 1; PipelineGuide.adder 5]
           false true () (PipelineGuide.World [] 0%nat)
           (PipelineGuide.World
              [ "starting module 0: add"; "finished module 0: add";
                "starting module 1: add"; "finished module 1: add" ]%string
              6%nat)).
  - repeat constructor.
  - vm_compute. reflexivity.
Defined.
